(** * Product review analyzer (app.py): response normalisation, model
      selection and request handlers.

    The Flask application is embedded as follows.

    - Python [str] values are [string]s; a character is a code point in
      the range 0..255.
    - Calls that leave the process (the Gemini client, trafilatura) and log
      records are nodes of a small program tree [Prog]; [run] interprets a
      tree against an environment that answers every call, and returns the
      outcome together with the ordered list of events.
    - [json.loads] and [urllib.parse.urlparse] are library functions of the
      interpreter, not of the repository: the handlers take them as
      arguments.  [json_loads_ref] and [urlparse_ref] are small reference
      instances used to evaluate the handlers on concrete requests. *)

From Stdlib Require Import String Ascii List Bool Arith ZArith Lia.
From Stdlib Require Import DecimalString.
Import ListNotations.
Open Scope string_scope.
Open Scope nat_scope.
Set Warnings "-abstract-large-number,-register-all".

(** ** Python string primitives used by app.py *)

Module Py.

(** Characters that cannot be typed inside a literal here. *)
Definition nl_char : ascii := ascii_of_nat 10.
Definition dq_char : ascii := ascii_of_nat 34.
Definition nl : string := String nl_char EmptyString.
Definition dq : string := String dq_char EmptyString.

(** [str.isspace] on one character, for code points below 256:
    TAB, LF, VT, FF, CR, FS, GS, RS, US, SPACE, NEL and NBSP. *)
Definition isspace (c : ascii) : bool :=
  let n := nat_of_ascii c in
  ((9 <=? n) && (n <=? 13)) || ((28 <=? n) && (n <=? 32))
  || (n =? 133) || (n =? 160).

(** [str.lower] on one character, for code points below 256: A-Z and the
    Latin-1 capitals 192..222 except the multiplication sign 215. *)
Definition lower_char (c : ascii) : ascii :=
  let n := nat_of_ascii c in
  if ((65 <=? n) && (n <=? 90))
     || ((192 <=? n) && (n <=? 222) && negb (n =? 215))
  then ascii_of_nat (n + 32) else c.

Fixpoint lower (s : string) : string :=
  match s with
  | EmptyString => EmptyString
  | String c s' => String (lower_char c) (lower s')
  end.

(** [s[n:]] *)
Fixpoint drop (n : nat) (s : string) : string :=
  match n, s with
  | O, _ => s
  | S _, EmptyString => EmptyString
  | S n', String _ s' => drop n' s'
  end.

(** [s[:n]] *)
Fixpoint take (n : nat) (s : string) : string :=
  match n, s with
  | O, _ => EmptyString
  | S _, EmptyString => EmptyString
  | S n', String c s' => String c (take n' s')
  end.

(** [sub in s] *)
Fixpoint contains (sub s : string) : bool :=
  prefix sub s ||
  match s with
  | EmptyString => false
  | String _ s' => contains sub s'
  end.

(** The leftmost occurrence of [sep] in [s]: the text before it and the
    text after it ([str.find] followed by the two slices). *)
Fixpoint cut (sep s : string) : option (string * string) :=
  if prefix sep s then Some (EmptyString, drop (String.length sep) s)
  else match s with
       | EmptyString => None
       | String c s' =>
           match cut sep s' with
           | Some (a, b) => Some (String c a, b)
           | None => None
           end
       end.

(** [s.partition(sep)[0]]: the text before the leftmost occurrence, all
    of [s] when there is none. *)
Definition before (sep s : string) : string :=
  match cut sep s with
  | Some (a, _) => a
  | None => s
  end.

(** [s.split(sep)] for a non-empty [sep]: cut at the leftmost occurrence,
    keep the text before it and go on after it.  A string has at most
    [String.length s] occurrences, which bounds the loop. *)
Fixpoint split_loop (fuel : nat) (sep s : string) : list string :=
  match fuel with
  | O => [s]
  | S fuel' =>
      match cut sep s with
      | None => [s]
      | Some (a, b) => a :: split_loop fuel' sep b
      end
  end.

Definition split (sep s : string) : list string :=
  split_loop (String.length s) sep s.

(** [l[i]] for a list of strings; the handlers only index where the
    element exists, the default is never reached there. *)
Definition item (i : nat) (l : list string) : string :=
  nth i l EmptyString.

Fixpoint lstrip (s : string) : string :=
  match s with
  | EmptyString => EmptyString
  | String c s' => if isspace c then lstrip s' else s
  end.

Fixpoint rstrip (s : string) : string :=
  match s with
  | EmptyString => EmptyString
  | String c s' =>
      match rstrip s' with
      | EmptyString => if isspace c then EmptyString else String c EmptyString
      | r => String c r
      end
  end.

(** [s.strip()] *)
Definition strip (s : string) : string := rstrip (lstrip s).

(** [s.replace('\n', ' ')] *)
Fixpoint replace_nl (s : string) : string :=
  match s with
  | EmptyString => EmptyString
  | String c s' =>
      String (if Ascii.eqb c nl_char then " "%char else c) (replace_nl s')
  end.

(** [str(n)] for a non-negative integer. *)
Definition str_of_nat (n : nat) : string :=
  NilZero.string_of_uint (Nat.to_uint n).

(** ["\n".join(lines)] *)
Fixpoint join_lines (l : list string) : string :=
  match l with
  | [] => EmptyString
  | [x] => x
  | x :: rest => x ++ nl ++ join_lines rest
  end.

End Py.

Import Py.

(** ** Outcomes, external calls and programs *)

(** The outcome of a Python call: a value, or a raised exception, kept as
    the text [str(e)] that the handlers interpolate into their messages. *)
Inductive result (A : Type) : Type :=
| Ok (a : A)
| Err (e : string).
Arguments Ok {A} a.
Arguments Err {A} e.

(** The outcome of [json.loads]: the value read, a
    [json.JSONDecodeError], or an exception of another class (a
    [RecursionError] on deep nesting, a [ValueError] on an integer literal
    beyond the digit limit).  Both errors keep the text [str(e)]. *)
Inductive loaded (A : Type) : Type :=
| Loaded (v : A)
| DecodeError (e : string)
| OtherError (e : string).
Arguments Loaded {A} v.
Arguments DecodeError {A} e.
Arguments OtherError {A} e.

(** A [genai.GenerativeModel] object, identified by the name it was built
    from. *)
Record Model : Type := { model_name : string }.

(** What [generate_content] returns; reading [.text] may itself raise. *)
Record Response : Type := { text : result string }.

Inductive Level : Type := LvDebug | LvInfo | LvWarning | LvError | LvCritical.

(** The calls that leave the process. *)
Inductive Op : Type :=
| list_models
| GenerativeModel (name : string)
| generate_content (m : Model) (prompt : string)
| fetch_url (url : string)
| extract (downloaded : string).

Definition reply (o : Op) : Type :=
  match o with
  | list_models => list string
  | GenerativeModel _ => Model
  | generate_content _ _ => Response
  | fetch_url _ => option string
  | extract _ => option string
  end.

Inductive Event : Type :=
| Called (o : Op)
| Logged (lvl : Level) (msg : string).

(** A program: return, raise, call out and continue with the outcome of the
    call, or write a log record and continue. *)
Inductive Prog (A : Type) : Type :=
| Ret (a : A)
| Throw (e : string)
| Vis (o : Op) (k : result (reply o) -> Prog A)
| Log (lvl : Level) (msg : string) (k : Prog A).
Arguments Ret {A} a.
Arguments Throw {A} e.
Arguments Vis {A} o k.
Arguments Log {A} lvl msg k.

Fixpoint bind {A B : Type} (p : Prog A) (f : A -> Prog B) : Prog B :=
  match p with
  | Ret a => f a
  | Throw e => Throw e
  | Vis o k => Vis o (fun r => bind (k r) f)
  | Log lvl msg k => Log lvl msg (bind k f)
  end.

(** [try: p except Exception as e: h e] *)
Fixpoint try_except {A : Type} (p : Prog A) (h : string -> Prog A) : Prog A :=
  match p with
  | Ret a => Ret a
  | Throw e => h e
  | Vis o k => Vis o (fun r => try_except (k r) h)
  | Log lvl msg k => Log lvl msg (try_except k h)
  end.

(** A call whose exception propagates. *)
Definition call (o : Op) : Prog (reply o) :=
  Vis o (fun r => match r with Ok x => Ret x | Err e => Throw e end).

Definition of_result {A : Type} (r : result A) : Prog A :=
  match r with Ok x => Ret x | Err e => Throw e end.

Declare Scope prog_scope.
Delimit Scope prog_scope with prog.
Notation "x <- c ;; k" := (bind c (fun x => k))
  (at level 61, c at next level, right associativity) : prog_scope.

(** The world outside answers every call.  No run issues the same call
    twice (the candidates are distinct names, and so are the models built
    from them; the two prompts of [/scrape] are distinct texts, see
    [prompts_distinct]), so one answer per call describes whatever the
    world may do during a run. *)
Definition Env : Type := forall o : Op, result (reply o).

(** [run env p]: the outcome of [p] and its events in the order they
    happened. *)
Fixpoint run {A : Type} (env : Env) (p : Prog A) : result A * list Event :=
  match p with
  | Ret a => (Ok a, [])
  | Throw e => (Err e, [])
  | Vis o k =>
      let '(r, t) := run env (k (env o)) in (r, Called o :: t)
  | Log lvl msg k =>
      let '(r, t) := run env k in (r, Logged lvl msg :: t)
  end.

Definition is_llm_call (ev : Event) : bool :=
  match ev with
  | Called (generate_content _ _) => true
  | _ => false
  end.

(** Calls that reach the network: everything but log records. *)
Definition is_network (ev : Event) : bool :=
  match ev with
  | Called _ => true
  | Logged _ _ => false
  end.

(** ** Startup: model selection (app.py, lines 21-61) *)

Definition model_candidates : list string :=
  [ "models/gemini-1.5-flash"; "models/chat-bison-001"; "models/text-bison-001" ].

(** The [for candidate in model_candidates] loop.  [model] is the global
    variable: it is assigned as soon as the constructor returns, before the
    test prompt is sent. *)
Fixpoint try_candidates (candidates : list string) (model : option Model)
  : Prog (option Model) :=
  match candidates with
  | [] => Ret model
  | candidate :: rest =>
      Log LvInfo ("Attempting to initialize model: " ++ candidate)
        (Vis (GenerativeModel candidate) (fun r =>
           match r with
           | Err e =>
               Log LvWarning
                 ("Failed to initialize model " ++ candidate ++ ": " ++ e)
                 (try_candidates rest model)
           | Ok m =>
               Vis (generate_content m "Hello") (fun test_response =>
                 match test_response with
                 | Err e =>
                     Log LvWarning
                       ("Failed to initialize model " ++ candidate ++ ": " ++ e)
                       (try_candidates rest (Some m))
                 | Ok _ =>
                     Log LvInfo
                       ("Successfully initialized and verified model: "
                        ++ candidate)
                       (Ret (Some m))
                 end)
           end))
  end.

Definition last_resort : string := "models/gemini-1.5-flash-latest".

(** The whole startup block; its value is the global [model] that the
    handlers read afterwards. *)
Definition init_model : Prog (option Model) :=
  Log LvInfo "Fetching available Gemini models..."
    (Vis list_models (fun r =>
       match r with
       | Err e =>
           Log LvError ("Complete failure initializing any Gemini model: " ++ e)
             (Log LvCritical
                "Unable to initialize any model - API connectivity issues likely"
                (Ret None))
       | Ok model_names =>
           Log LvInfo
             ("Available models count: " ++ str_of_nat (List.length model_names))
             (bind (try_candidates model_candidates None) (fun model =>
                match model with
                | Some m => Ret (Some m)
                | None =>
                    Log LvError
                      "All standard models failed. Trying direct model name from the logs."
                      (Log LvWarning
                         "Trying with model 'models/gemini-1.5-flash-latest'"
                         (Vis (GenerativeModel last_resort) (fun r' =>
                            match r' with
                            | Ok m => Ret (Some m)
                            | Err e =>
                                Log LvError
                                  ("Complete failure initializing any Gemini model: " ++ e)
                                  (Log LvCritical
                                     "Unable to initialize any model - API connectivity issues likely"
                                     (Ret None))
                            end)))
                end))
       end)).

(** ** Response normalisation (lines 121-129 and, verbatim again, 253-261) *)

Definition fence_json : string := "```json".
Definition fence : string := "```".

Definition extract_json_str (response_text : string) : string :=
  if contains fence_json response_text then
    strip (item 0 (split fence (item 1 (split fence_json response_text))))
  else if contains fence response_text then
    strip (item 1 (split fence response_text))
  else response_text.

Definition clean_json_str (json_str : string) : string :=
  strip (replace_nl json_str).

Definition normalize (response_text : string) : string :=
  clean_json_str (extract_json_str response_text).

(** ** Prompts *)

Definition analyze_prompt (review_text : string) : string :=
  join_lines
    [ EmptyString;
      "        You are a product review analyzer with expertise in detecting fake reviews. Please analyze the following product review:";
      "        " ]
  ++ nl ++ "        " ++ dq ++ review_text ++ dq ++
  join_lines
    [ EmptyString;
      "        ";
      "        Please provide the following analysis in JSON format:";
      "        1. Sentiment: Overall sentiment (positive, negative, or neutral)";
      "        2. Score: A numerical score from 1-10";
      "        3. Key Points: List of main points from the review (maximum 5)";
      "        4. Strengths: Product strengths mentioned (maximum 3)";
      "        5. Weaknesses: Product weaknesses mentioned (maximum 3)";
      "        6. Summary: A brief summary of the review (maximum 2 sentences)";
      "        7. Improvement Suggestions: Suggested improvements based on the review (maximum 2)";
      "        8. AuthenticityScore: A numerical score from 1-100 indicating how likely the review is genuine (where 100 is definitely genuine)";
      "        9. AuthenticityAssessment: A brief assessment of whether the review seems authentic or potentially fake, and what factors led to this determination";
      "        ";
      "        Factors that might indicate a fake review:";
      "        - Overly positive or negative language without specific details";
      "        - Generic statements that could apply to any product";
      "        - Excessive use of brand names";
      "        - Language inconsistencies or awkward phrasing";
      "        - Lack of personal experience details";
      "        ";
      "        Factors indicating authentic reviews:";
      "        - Specific details about product usage";
      "        - Balanced pros and cons";
      "        - Specific context about how they used the product";
      "        - Mentions of comparable products";
      "        - Natural language patterns";
      "        ";
      "        Return only a valid JSON object with these fields.";
      "        " ].

Definition review_prompt (content_head : string) : string :=
  join_lines
    [ EmptyString;
      "        You are a product reviewer. I will provide you with content extracted from a product page.";
      "        Based on this content, generate a comprehensive product review.";
      EmptyString;
      "        Product page content:" ]
  ++ nl ++ "        " ++ dq ++ content_head ++ dq ++
  join_lines
    [ "  # Limiting content length to avoid token limits";
      EmptyString;
      "        Please write a detailed review of this product that includes:";
      "        1. Product name and basic description";
      "        2. Key features and specifications";
      "        3. Perceived quality and build";
      "        4. Value for money";
      "        5. Target audience";
      "        6. Overall assessment";
      "        ";
      "        Keep the review balanced, honest, and informative. The length should be around 300-500 words.";
      "        " ].

Definition scrape_analysis_prompt (review_text : string) : string :=
  join_lines
    [ EmptyString;
      "        You are a product review analyzer with expertise in detecting fake reviews. Please analyze the following product review:";
      "        " ]
  ++ nl ++ "        " ++ dq ++ review_text ++ dq ++
  join_lines
    [ EmptyString;
      "        ";
      "        Please provide the following analysis in JSON format:";
      "        1. Sentiment: Overall sentiment (positive, negative, or neutral)";
      "        2. Score: A numerical score from 1-10";
      "        3. Key Points: List of main points from the review (maximum 5)";
      "        4. Strengths: Product strengths mentioned (maximum 3)";
      "        5. Weaknesses: Product weaknesses mentioned (maximum 3)";
      "        6. Summary: A brief summary of the review (maximum 2 sentences)";
      "        7. Improvement Suggestions: Suggested improvements based on the review (maximum 2)";
      "        8. ProductName: The name of the product";
      "        9. Review: The full text of the generated review";
      "        10. AuthenticityScore: A numerical score from 1-100 indicating how likely the review is genuine (where 100 is definitely genuine)";
      "        11. AuthenticityAssessment: A brief assessment of whether the review seems authentic or potentially fabricated";
      "        ";
      "        Return only a valid JSON object with these fields.";
      "        " ].


(** ** Requests and responses *)

(** The JSON body of a request, as [request.get_json()] returns it. *)
Definition dict : Type := list (string * string).

Fixpoint dict_get (data : dict) (key default : string) : string :=
  match data with
  | [] => default
  | (k, v) :: rest => if String.eqb k key then v else dict_get rest key default
  end.

(** [not s] for a string. *)
Definition is_empty (s : string) : bool :=
  match s with EmptyString => true | _ => false end.

(** [not x] for a string or [None]. *)
Definition falsy (x : option string) : bool :=
  match x with None => true | Some s => is_empty s end.

(** The two fields of [urlparse]'s result that the handler reads. *)
Record ParseResult : Type := { scheme : string; netloc : string }.

Definition e_commerce_sites : list string :=
  [ ".flipkart."; ".amazon."; ".meesho."; ".myntra."; ".ebay."; ".walmart." ].

Definition bot_protection_message : string :=
  "This e-commerce website has bot protection that prevents scraping. "
  ++ "Please try one of our sample URLs or another non-e-commerce website.".

Definition fetch_failed_message : string :=
  "Failed to access this URL. Please try one of our sample URLs like Firefox Privacy, Smartphone Wiki, or Sony Headphones.".

Definition insufficient_content_message : string :=
  "Could not extract readable content from this URL. The page might not have enough text content or might be protected.".

Definition parse_failed_message : string :=
  "Failed to parse the response from Gemini API".

Definition none_model_message : string :=
  "'NoneType' object has no attribute 'generate_content'".

(** [model.generate_content(prompt)] on the global, which is [None] when
    startup failed. *)
Definition generate (model : option Model) (prompt : string) : Prog Response :=
  match model with
  | Some m => call (generate_content m prompt)
  | None => Throw none_model_message
  end.

Section Handlers.

(** The value type of the JSON reader and the two library functions. *)
Variable J : Type.
Variable json_loads : string -> loaded J.
Variable urlparse : string -> result ParseResult.

(** What [jsonify] is given: the parsed analysis, or a dict of text
    fields. *)
Inductive Body : Type :=
| Analysis (v : J)
| Fields (fields : list (string * string)).

Record HttpResponse : Type := { body : Body; status : nat }.

Definition error_response (msg : string) (code : nat) : HttpResponse :=
  {| body := Fields [("error", msg)]; status := code |}.

(** Lines 119-142 and 252-274: normalise the model's text, parse it, and
    answer.  The inner [except] names [json.JSONDecodeError] only: any
    other exception of [json.loads] propagates to the handler's outer
    [except]. *)
Definition parse_and_respond (response_text : string) : Prog HttpResponse :=
  let json_str := extract_json_str response_text in
  let json_str := clean_json_str json_str in
  match json_loads json_str with
  | Loaded analysis => Ret {| body := Analysis analysis; status := 200 |}
  | DecodeError e =>
      Log LvError ("Error decoding JSON: " ++ e)
        (Log LvDebug ("Response text: " ++ response_text)
           (Log LvDebug ("Extracted JSON string: " ++ json_str)
              (Ret {| body := Fields [("error", parse_failed_message);
                                      ("raw_response", response_text)];
                      status := 500 |})))
  | OtherError e => Throw e
  end.

(** The outermost [except Exception as e] of a handler. *)
Definition unexpected (what e : string) : Prog HttpResponse :=
  Log LvError (what ++ e)
    (Ret (error_response ("An error occurred: " ++ e) 500)).

(** [POST /analyze] *)
Definition analyze_review (model : option Model) (data : dict)
  : Prog HttpResponse :=
  try_except
    (let review_text := dict_get data "review" EmptyString in
     if is_empty review_text then
       Ret (error_response "No review text provided" 400)
     else
       let prompt := analyze_prompt review_text in
       (response <- generate model prompt ;;
        response_text <- of_result (text response) ;;
        parse_and_respond response_text)%prog)
    (unexpected "Error analyzing review: ").

(** Lines 175-190: nothing was downloaded. *)
Definition download_failed (url : string) : Prog (HttpResponse + string) :=
  let is_ecommerce :=
    existsb (fun site => contains site (lower url)) e_commerce_sites in
  if is_ecommerce then
    Log LvWarning ("Likely bot protection encountered on " ++ url)
      (Ret (inl (error_response bot_protection_message 429)))
  else
    Log LvError ("Failed to download content from URL: " ++ url)
      (Ret (inl (error_response fetch_failed_message 400))).

(** Lines 192-198: extract the text and check that there is enough. *)
Definition extract_content (url downloaded : string)
  : Prog (HttpResponse + string) :=
  (content <- call (extract downloaded) ;;
   match content with
   | Some c =>
       if is_empty c || (String.length c <? 100) then
         Log LvError ("Failed to extract meaningful content from URL: " ++ url)
           (Ret (inl (error_response insufficient_content_message 400)))
       else
         Log LvDebug
           ("Successfully extracted content from URL. Length: "
            ++ str_of_nat (String.length c))
           (Ret (inr c))
   | None =>
       Log LvError ("Failed to extract meaningful content from URL: " ++ url)
         (Ret (inl (error_response insufficient_content_message 400)))
   end)%prog.

(** Lines 167-201: download and extract.  The left summand is a response
    returned from inside the [try], the right one the extracted
    content. *)
Definition fetch_content (url : string) : Prog (HttpResponse + string) :=
  try_except
    (Log LvDebug ("Attempting to scrape content from: " ++ url)
       (downloaded <- call (fetch_url url) ;;
        match downloaded with
        | Some html =>
            if is_empty html then download_failed url
            else extract_content url html
        | None => download_failed url
        end)%prog)
    (fun e =>
       Log LvError ("Error scraping website: " ++ e)
         (Ret (inl (error_response
                      ("Error scraping website: " ++ e
                       ++ ". Try using a different URL.") 500)))).

(** Lines 203-274: write the review from the content, then analyse the
    review. *)
Definition review_and_analyze (model : option Model) (content : string)
  : Prog HttpResponse :=
  let prompt := review_prompt (take 8000 content) in
  (response <- generate model prompt ;;
   review_text <- of_result (text response) ;;
   let analysis_prompt := scrape_analysis_prompt review_text in
   analysis_response <- generate model analysis_prompt ;;
   response_text <- of_result (text analysis_response) ;;
   parse_and_respond response_text)%prog.

(** [POST /scrape] *)
Definition scrape_product (model : option Model) (data : dict)
  : Prog HttpResponse :=
  try_except
    (let url := dict_get data "url" EmptyString in
     if is_empty url then Ret (error_response "No URL provided" 400)
     else
       match urlparse url with
       | Err _ => Ret (error_response "Invalid URL" 400)
       | Ok parsed_url =>
           if is_empty (scheme parsed_url) || is_empty (netloc parsed_url)
           then Ret (error_response "Invalid URL format" 400)
           else
             (fetched <- fetch_content url ;;
              match fetched with
              | inl early => Ret early
              | inr content => review_and_analyze model content
              end)%prog
       end)
    (unexpected "Error processing product URL: ").

End Handlers.

Arguments Analysis {J} v.
Arguments Fields {J} fields.
Arguments body {J} h.
Arguments status {J} h.
Arguments error_response {J} msg code.
Arguments unexpected {J} what e.

(** ** Reference instances of the two library functions *)

(** JSON values, numbers restricted to integers. *)
Inductive json : Type :=
| JNull
| JBool (b : bool)
| JInt (z : Z)
| JString (s : string)
| JArray (items : list json)
| JObject (members : list (string * json)).

Module JsonRef.

Definition is_ws (c : ascii) : bool :=
  let n := nat_of_ascii c in
  (n =? 32) || (n =? 9) || (n =? 10) || (n =? 13).

Fixpoint skip_ws (s : string) : string :=
  match s with
  | EmptyString => EmptyString
  | String c s' => if is_ws c then skip_ws s' else s
  end.

Definition is_digit (c : ascii) : bool :=
  let n := nat_of_ascii c in (48 <=? n) && (n <=? 57).

Definition unescape (c : ascii) : option ascii :=
  let n := nat_of_ascii c in
  if n =? 34 then Some c            (* quote *)
  else if n =? 92 then Some c       (* backslash *)
  else if n =? 47 then Some c       (* slash *)
  else if n =? 98 then Some (ascii_of_nat 8)
  else if n =? 102 then Some (ascii_of_nat 12)
  else if n =? 110 then Some (ascii_of_nat 10)
  else if n =? 114 then Some (ascii_of_nat 13)
  else if n =? 116 then Some (ascii_of_nat 9)
  else None.

Definition hex_value (c : ascii) : option nat :=
  let n := nat_of_ascii c in
  if (48 <=? n) && (n <=? 57) then Some (n - 48)
  else if (97 <=? n) && (n <=? 102) then Some (n - 87)
  else if (65 <=? n) && (n <=? 70) then Some (n - 55)
  else None.

(** The code point written by four hexadecimal digits, when it is below
    256. *)
Definition unicode_escape (a b c d : ascii) : option ascii :=
  match hex_value a, hex_value b, hex_value c, hex_value d with
  | Some x, Some y, Some z, Some w =>
      if (x =? 0) && (y =? 0) then Some (ascii_of_nat (16 * z + w)) else None
  | _, _, _, _ => None
  end.

(** The characters of a string literal after its opening quote, up to
    the closing quote.  A raw control character is an error. *)
Fixpoint read_string (s : string) : option (string * string) :=
  match s with
  | EmptyString => None
  | String c s' =>
      if nat_of_ascii c =? 34 then Some (EmptyString, s')
      else if nat_of_ascii c =? 92 then
        match s' with
        | EmptyString => None
        | String e s'' =>
            if nat_of_ascii e =? 117 then
              match s'' with
              | String h1 (String h2 (String h3 (String h4 s3))) =>
                  match unicode_escape h1 h2 h3 h4, read_string s3 with
                  | Some ch, Some (r, rest) => Some (String ch r, rest)
                  | _, _ => None
                  end
              | _ => None
              end
            else
              match unescape e, read_string s'' with
              | Some ch, Some (r, rest) => Some (String ch r, rest)
              | _, _ => None
              end
        end
      else if nat_of_ascii c <? 32 then None
      else
        match read_string s' with
        | Some (r, rest) => Some (String c r, rest)
        | None => None
        end
  end.

Fixpoint read_digits (acc : Z) (s : string) : Z * string :=
  match s with
  | String c s' =>
      if is_digit c
      then read_digits (10 * acc + Z.of_nat (nat_of_ascii c - 48))%Z s'
      else (acc, s)
  | EmptyString => (acc, s)
  end.

(** An integer literal: no leading zero, no fraction, no exponent. *)
Definition read_nat (s : string) : option (Z * string) :=
  match s with
  | String c s' =>
      if negb (is_digit c) then None
      else
        let '(z, rest) := read_digits 0%Z s in
        let leading_zero :=
          (nat_of_ascii c =? 48) &&
          match s' with String d _ => is_digit d | EmptyString => false end in
        let more :=
          match rest with
          | String d _ =>
              let n := nat_of_ascii d in (n =? 46) || (n =? 101) || (n =? 69)
          | EmptyString => false
          end in
        if leading_zero || more then None else Some (z, rest)
  | EmptyString => None
  end.

Definition read_literal (s : string) : option (json * string) :=
  if prefix "null" s then Some (JNull, drop 4 s)
  else if prefix "true" s then Some (JBool true, drop 4 s)
  else if prefix "false" s then Some (JBool false, drop 5 s)
  else
    match s with
    | String c s' =>
        if nat_of_ascii c =? 45 then
          match read_nat s' with
          | Some (z, rest) => Some (JInt (- z)%Z, rest)
          | None => None
          end
        else
          match read_nat s with
          | Some (z, rest) => Some (JInt z, rest)
          | None => None
          end
    | EmptyString => None
    end.

Definition starts (n : nat) (s : string) : option string :=
  match s with
  | String c s' => if nat_of_ascii c =? n then Some s' else None
  | EmptyString => None
  end.

(** Recursive descent; [fuel] bounds the nesting of calls. *)
Fixpoint read_value (fuel : nat) (s : string) : option (json * string) :=
  match fuel with
  | O => None
  | S fuel' =>
      match starts 123 s, starts 91 s, starts 34 s with
      | Some rest, _, _ =>
          match starts 125 (skip_ws rest) with
          | Some rest' => Some (JObject [], rest')
          | None =>
              match read_members fuel' (skip_ws rest) with
              | Some (ms, rest') => Some (JObject ms, rest')
              | None => None
              end
          end
      | _, Some rest, _ =>
          match starts 93 (skip_ws rest) with
          | Some rest' => Some (JArray [], rest')
          | None =>
              match read_items fuel' (skip_ws rest) with
              | Some (vs, rest') => Some (JArray vs, rest')
              | None => None
              end
          end
      | _, _, Some rest =>
          match read_string rest with
          | Some (str, rest') => Some (JString str, rest')
          | None => None
          end
      | None, None, None => read_literal s
      end
  end

with read_items (fuel : nat) (s : string) : option (list json * string) :=
  match fuel with
  | O => None
  | S fuel' =>
      match read_value fuel' s with
      | Some (v, rest) =>
          match starts 44 (skip_ws rest), starts 93 (skip_ws rest) with
          | Some rest', _ =>
              match read_items fuel' (skip_ws rest') with
              | Some (vs, rest'') => Some (v :: vs, rest'')
              | None => None
              end
          | _, Some rest' => Some ([v], rest')
          | None, None => None
          end
      | None => None
      end
  end

with read_members (fuel : nat) (s : string)
  : option (list (string * json) * string) :=
  match fuel with
  | O => None
  | S fuel' =>
      match starts 34 s with
      | None => None
      | Some after_quote =>
          match read_string after_quote with
          | None => None
          | Some (key, rest) =>
              match starts 58 (skip_ws rest) with
              | None => None
              | Some rest1 =>
                  match read_value fuel' (skip_ws rest1) with
                  | None => None
                  | Some (v, rest2) =>
                      match starts 44 (skip_ws rest2),
                            starts 125 (skip_ws rest2) with
                      | Some rest3, _ =>
                          match read_members fuel' (skip_ws rest3) with
                          | Some (ms, rest4) => Some ((key, v) :: ms, rest4)
                          | None => None
                          end
                      | _, Some rest3 => Some ([(key, v)], rest3)
                      | None, None => None
                      end
                  end
              end
          end
      end
  end.

End JsonRef.

(** A reader for the fragment of JSON with integer numbers and code points
    below 256, standing for [json.loads] where a handler is evaluated on a
    concrete text.  Texts outside the fragment are rejected with a decode
    error; the reader has no limit on nesting or on digits, so it raises
    nothing else. *)
Definition json_loads_ref (s : string) : loaded json :=
  match JsonRef.read_value (2 * String.length s + 2) (JsonRef.skip_ws s) with
  | Some (v, rest) =>
      if is_empty (JsonRef.skip_ws rest) then Loaded v
      else DecodeError "Extra data"
  | None => DecodeError "Expecting value"
  end.

(** The number of brackets a text opens in a row. *)
Fixpoint leading_brackets (s : string) : nat :=
  match s with
  | String c s' => if nat_of_ascii c =? 91 then S (leading_brackets s') else 0
  | EmptyString => 0
  end.

(** A reader with the nesting limit of the interpreter made explicit: a
    text that opens more than [limit] brackets in a row makes it raise a
    [RecursionError]; any other text is read as by [json_loads_ref]. *)
Definition json_loads_limited (limit : nat) (s : string) : loaded json :=
  if limit <? leading_brackets (JsonRef.skip_ws s)
  then OtherError "maximum recursion depth exceeded while decoding a JSON array from a unicode string"
  else json_loads_ref s.

Module JsonPrint.

Definition bs_char : ascii := ascii_of_nat 92.

Definition hex_digit (n : nat) : ascii :=
  ascii_of_nat (if n <? 10 then 48 + n else 87 + n).

(** One character inside a string literal: the short escapes, the
    four-digit escape for what is not printable ASCII, the character
    itself otherwise. *)
Definition escape_char (c : ascii) : string :=
  let n := nat_of_ascii c in
  let short (x : string) := String bs_char x in
  if n =? 34 then short dq
  else if n =? 92 then short (String bs_char EmptyString)
  else if n =? 8 then short "b"
  else if n =? 12 then short "f"
  else if n =? 10 then short "n"
  else if n =? 13 then short "r"
  else if n =? 9 then short "t"
  else if (n <? 32) || (126 <? n) then
    short ("u00" ++ String (hex_digit (n / 16))
                      (String (hex_digit (n mod 16)) EmptyString))
  else String c EmptyString.

Fixpoint escape (s : string) : string :=
  match s with
  | EmptyString => EmptyString
  | String c s' => escape_char c ++ escape s'
  end.

Definition quote (s : string) : string :=
  String dq_char (escape s ++ dq).

Fixpoint join_with (sep : string) (l : list string) : string :=
  match l with
  | [] => EmptyString
  | [x] => x
  | x :: rest => x ++ sep ++ join_with sep rest
  end.

End JsonPrint.

(** The minified rendering of a value: no white space between tokens, as
    [json.dumps(v, separators=(',', ':'))] writes it. *)
Fixpoint json_dumps (v : json) : string :=
  match v with
  | JNull => "null"
  | JBool b => if b then "true" else "false"
  | JInt z => NilZero.string_of_int (Z.to_int z)
  | JString s => JsonPrint.quote s
  | JArray items =>
      String "[" (JsonPrint.join_with "," (map json_dumps items) ++ "]")
  | JObject members =>
      String "{"
        (JsonPrint.join_with ","
           (map (fun kv : string * json =>
                   let (k, x) := kv in JsonPrint.quote k ++ ":" ++ json_dumps x)
                members)
         ++ "}")
  end.

Module UrlRef.

(** Letters, digits, and [+-.]: the characters of a scheme. *)
Definition scheme_char (c : ascii) : bool :=
  let n := nat_of_ascii c in
  ((97 <=? n) && (n <=? 122)) || ((65 <=? n) && (n <=? 90))
  || ((48 <=? n) && (n <=? 57)) || (n =? 43) || (n =? 45) || (n =? 46).

Definition ascii_alpha (c : ascii) : bool :=
  let n := nat_of_ascii c in
  ((97 <=? n) && (n <=? 122)) || ((65 <=? n) && (n <=? 90)).

Fixpoint all_scheme_chars (s : string) : bool :=
  match s with
  | EmptyString => true
  | String c s' => scheme_char c && all_scheme_chars s'
  end.

(** The text up to the first of [/], [?] and [#]. *)
Fixpoint until_delim (s : string) : string :=
  match s with
  | EmptyString => EmptyString
  | String c s' =>
      let n := nat_of_ascii c in
      if (n =? 47) || (n =? 63) || (n =? 35) then EmptyString
      else String c (until_delim s')
  end.

Definition has_char (n : nat) (s : string) : bool :=
  contains (String (ascii_of_nat n) EmptyString) s.

End UrlRef.

(** Scheme and network location as [urlsplit] finds them: the scheme is the
    text before the first colon when it starts with a letter and consists
    of scheme characters, the network location is what follows [//] up to
    the next [/], [?] or [#].  Standing for [urlparse] where a handler is
    evaluated on a concrete URL. *)
Definition urlparse_ref (url : string) : result ParseResult :=
  let '(sch, rest) :=
    match cut ":" url with
    | Some (String c before, after) =>
        if UrlRef.ascii_alpha c && UrlRef.all_scheme_chars before
        then (lower (String c before), after)
        else (EmptyString, url)
    | _ => (EmptyString, url)
    end in
  let loc := if prefix "//" rest then UrlRef.until_delim (drop 2 rest)
             else EmptyString in
  if xorb (UrlRef.has_char 91 loc) (UrlRef.has_char 93 loc)
  then Err "Invalid IPv6 URL"
  else Ok {| scheme := sch; netloc := loc |}.

(** ** Vocabulary of the statements *)

(** The text of the review prompt before and after the quoted content
    (lines 204-209 and 209-220). *)
Definition review_prompt_head : string :=
  join_lines
    [ EmptyString;
      "        You are a product reviewer. I will provide you with content extracted from a product page.";
      "        Based on this content, generate a comprehensive product review.";
      EmptyString;
      "        Product page content:" ]
  ++ nl ++ "        ".

Definition review_prompt_tail : string :=
  join_lines
    [ "  # Limiting content length to avoid token limits";
      EmptyString;
      "        Please write a detailed review of this product that includes:";
      "        1. Product name and basic description";
      "        2. Key features and specifications";
      "        3. Perceived quality and build";
      "        4. Value for money";
      "        5. Target audience";
      "        6. Overall assessment";
      "        ";
      "        Keep the review balanced, honest, and informative. The length should be around 300-500 words.";
      "        " ].

(** The [hostname] attribute of [urlparse]'s result, which the handler does
    not read.  As [urllib] computes it from the network location: what
    follows the last [@], up to the first colon, or between the brackets
    of an IPv6 literal; lower-cased up to a zone mark; [None] when
    empty. *)
Fixpoint after_last_at (s : string) : string :=
  match s with
  | EmptyString => EmptyString
  | String c s' =>
      if contains "@" s' then after_last_at s'
      else if nat_of_ascii c =? 64 then s' else s
  end.

Definition hostname (netloc : string) : option string :=
  let hostinfo := after_last_at netloc in
  let name :=
    match cut "[" hostinfo with
    | Some (_, bracketed) => before "]" bracketed
    | None => before ":" hostinfo
    end in
  if is_empty name then None
  else
    match cut "%" name with
    | Some (h, zone) => Some (lower h ++ "%" ++ zone)
    | None => Some (lower name)
    end.

(** The text begins, or ends, with a character that [strip] removes. *)
Definition leading_space (s : string) : bool :=
  match s with
  | String c _ => isspace c
  | EmptyString => false
  end.

Fixpoint trailing_space (s : string) : bool :=
  match s with
  | EmptyString => false
  | String c EmptyString => isspace c
  | String _ s' => trailing_space s'
  end.

(** A text is compact when it holds no line feed and has no white space at
    either end.  Every minified JSON document is compact: it has no white
    space outside its string literals, a string literal cannot hold a raw
    line feed, and a document neither begins nor ends inside a literal. *)
Definition compact (s : string) : bool :=
  negb (contains nl s) && negb (leading_space s) && negb (trailing_space s).

(** No character of the text is white space. *)
Fixpoint solid (s : string) : bool :=
  match s with
  | EmptyString => true
  | String c s' => negb (isspace c) && solid s'
  end.

(** The names of the configured e-commerce domains. *)
Definition e_commerce_domains : list string :=
  [ "flipkart"; "amazon"; "meesho"; "myntra"; "ebay"; "walmart" ].

(** A host matches a configured domain when one of its dot-separated
    labels, compared without case, is the name of that domain. *)
Definition host_matches_domain (host : string) : bool :=
  existsb (fun d => existsb (String.eqb d) (split "." (lower host)))
          e_commerce_domains.

(** A candidate fails when its constructor raises, or when the constructor
    returns and the test prompt raises. *)
Definition candidate_fails (env : Env) (candidate : string) : Prop :=
  match env (GenerativeModel candidate) with
  | Err _ => True
  | Ok m => exists e, env (generate_content m "Hello") = Err e
  end.

(** The events of a trace that are calls to the model. *)
Definition llm_calls (t : list Event) : list Event := filter is_llm_call t.

Definition network_calls (t : list Event) : list Event := filter is_network t.

(** ** Worlds used in the examples *)

(** Every constructor succeeds, the provider answers every prompt with
    [txt], nothing can be downloaded. *)
Definition env_answering (txt : string) : Env :=
  fun o =>
    match o return result (reply o) with
    | list_models => Ok []
    | GenerativeModel name => Ok {| model_name := name |}
    | generate_content _ _ => Ok {| text := Ok txt |}
    | fetch_url _ => Ok None
    | extract _ => Ok None
    end.

(** Every constructor succeeds and every request to the provider raises,
    as with a key that the provider rejects. *)
Definition env_provider_down : Env :=
  fun o =>
    match o return result (reply o) with
    | list_models => Ok []
    | GenerativeModel name => Ok {| model_name := name |}
    | generate_content _ _ => Err "400 API key not valid"
    | fetch_url _ => Ok None
    | extract _ => Ok None
    end.

(** The page downloads and the extraction yields [content]; the provider
    answers every prompt with [txt]. *)
Definition env_page (content txt : string) : Env :=
  fun o =>
    match o return result (reply o) with
    | list_models => Ok []
    | GenerativeModel name => Ok {| model_name := name |}
    | generate_content _ _ => Ok {| text := Ok txt |}
    | fetch_url _ => Ok (Some "<html>page</html>")
    | extract _ => Ok (Some content)
    end.

Definition gemini_flash : Model := {| model_name := "models/gemini-1.5-flash" |}.

(** [c * n] *)
Fixpoint repeat_char (c : ascii) (n : nat) : string :=
  match n with
  | O => EmptyString
  | S n' => String c (repeat_char c n')
  end.

(** The response of the scenario: a JSON-tagged fenced block. *)
Definition fenced_example : string :=
  "```json" ++ nl
  ++ "{" ++ dq ++ "Sentiment" ++ dq ++ ":" ++ dq ++ "positive" ++ dq
  ++ "," ++ dq ++ "Score" ++ dq ++ ":8}" ++ nl ++ "```".

Definition example_document : string :=
  "{" ++ dq ++ "Sentiment" ++ dq ++ ":" ++ dq ++ "positive" ++ dq
  ++ "," ++ dq ++ "Score" ++ dq ++ ":8}".

Definition example_object : json :=
  JObject [("Sentiment", JString "positive"); ("Score", JInt 8)].

Definition nested_example : json :=
  JObject [ ("Key Points", JArray [JString ("two" ++ nl ++ "lines"); JNull]);
            ("Score", JInt (-3));
            ("Quoted", JString (dq ++ " caf" ++ String (ascii_of_nat 233) " "));
            ("Empty", JObject []) ].

(** ** The remaining route *)

(** [GET /health]: answers without reading the global [model]. *)
Definition health_check (J : Type) : Prog (HttpResponse J) :=
  Ret {| body := Fields [("status", "ok")]; status := 200 |}.

(** A world given by one answer function per kind of call. *)
Definition env_of (models : result (list string))
           (construct : string -> result Model)
           (generate : Model -> string -> result Response)
           (fetch : string -> result (option string))
           (extraction : string -> result (option string)) : Env :=
  fun o =>
    match o return result (reply o) with
    | list_models => models
    | GenerativeModel name => construct name
    | generate_content m prompt => generate m prompt
    | fetch_url url => fetch url
    | extract downloaded => extraction downloaded
    end.

(** The request holds the URL [url], and [url] passes the validation of
    lines 156-165. *)
Definition valid_url (urlparse : string -> result ParseResult)
           (data : dict) (url : string) : Prop :=
  dict_get data "url" EmptyString = url
  /\ is_empty url = false
  /\ exists p, urlparse url = Ok p
               /\ is_empty (scheme p) = false
               /\ is_empty (netloc p) = false.

(** The page downloads and its extraction passes the check of line 194. *)
Definition page_extracted (env : Env) (url html content : string) : Prop :=
  env (fetch_url url) = Ok (Some html)
  /\ is_empty html = false
  /\ env (extract html) = Ok (Some content)
  /\ 100 <= String.length content.

(** The events of [/scrape] up to a successful extraction. *)
Definition extraction_events (url html content : string) : list Event :=
  [ Logged LvDebug ("Attempting to scrape content from: " ++ url);
    Called (fetch_url url);
    Called (extract html);
    Logged LvDebug ("Successfully extracted content from URL. Length: "
                    ++ str_of_nat (String.length content)) ].

(** A request used in the examples. *)
Definition example_url : string := "https://example.org/item".
Definition example_data : dict := [("url", example_url)].
Definition example_html : string := "<html>page</html>".

(** The number of events of a trace that satisfy [f]. *)
Definition count_events (f : Event -> bool) (t : list Event) : nat :=
  List.length (filter f t).

Definition is_fetch (ev : Event) : bool :=
  match ev with
  | Called (fetch_url _) => true
  | _ => false
  end.

Definition is_constructor (ev : Event) : bool :=
  match ev with
  | Called (GenerativeModel _) => true
  | _ => false
  end.

(** * Properties *)

(** ** Strings *)

Section StringFacts.

Lemma prefix_cons (a b : ascii) (p s : string) :
  prefix (String a p) (String b s) = Ascii.eqb a b && prefix p s.
Proof.
  simpl. destruct (ascii_dec a b) as [->|Hne].
  - now rewrite Ascii.eqb_refl.
  - apply Ascii.eqb_neq in Hne. now rewrite Hne.
Qed.

Lemma prefix_nil (s : string) : prefix EmptyString s = true.
Proof. now destruct s. Qed.

Lemma prefix_app (p s : string) : prefix p (p ++ s) = true.
Proof.
  induction p as [|c p IH]; [apply prefix_nil|].
  cbn [append]. now rewrite prefix_cons, Ascii.eqb_refl.
Qed.

Lemma prefix_drop (p s : string) :
  prefix p s = true -> s = p ++ drop (String.length p) s.
Proof.
  revert s; induction p as [|c p IH]; intros s H; [reflexivity|].
  destruct s as [|d s]; [discriminate|].
  rewrite prefix_cons in H. apply andb_true_iff in H as [Hc Hp].
  apply Ascii.eqb_eq in Hc; subst d. cbn. f_equal. now apply IH.
Qed.

Lemma prefix_trans (a b c : string) :
  prefix a b = true -> prefix b c = true -> prefix a c = true.
Proof.
  revert b c; induction a as [|x a IH]; intros b c Hab Hbc;
    [apply prefix_nil|].
  destruct b as [|y b]; [discriminate|].
  destruct c as [|z c]; [discriminate|].
  rewrite prefix_cons in *.
  apply andb_true_iff in Hab as [H1 H2].
  apply andb_true_iff in Hbc as [H3 H4].
  apply Ascii.eqb_eq in H1, H3; subst.
  rewrite Ascii.eqb_refl. cbn. eauto.
Qed.

Lemma length_app (a b : string) :
  String.length (a ++ b) = String.length a + String.length b.
Proof. induction a; cbn; congruence. Qed.

Lemma app_assoc_s (a b c : string) : (a ++ b) ++ c = a ++ b ++ c.
Proof. induction a; cbn; congruence. Qed.

(** *** The leftmost occurrence *)

Lemma cut_sound (sep s a b : string) :
  cut sep s = Some (a, b) -> s = a ++ sep ++ b.
Proof.
  revert a b; induction s as [|c s IH]; intros a b H.
  - cbn [cut] in H. destruct (prefix sep EmptyString) eqn:Hp; [|discriminate].
    inversion H; subst. now apply prefix_drop.
  - cbn [cut] in H. destruct (prefix sep (String c s)) eqn:Hp.
    + inversion H; subst. now apply prefix_drop.
    + destruct (cut sep s) as [[a' b']|]; [|discriminate].
      inversion H; subst. cbn. f_equal. now apply IH.
Qed.

Lemma cut_contains (sep s : string) :
  contains sep s = true <-> exists a b, cut sep s = Some (a, b).
Proof.
  induction s as [|c s IH]; cbn [contains cut].
  - destruct (prefix sep EmptyString); cbn.
    + split; eauto.
    + split; [discriminate|]. intros (a & b & H); discriminate.
  - destruct (prefix sep (String c s)); cbn.
    + split; eauto.
    + rewrite IH. destruct (cut sep s) as [[a b]|].
      * split; eauto.
      * split; intros (a' & b' & H); discriminate.
Qed.

Lemma cut_none (sep s : string) :
  contains sep s = false <-> cut sep s = None.
Proof.
  destruct (contains sep s) eqn:Hc.
  - apply cut_contains in Hc as (a & b & H). rewrite H. now split.
  - split; [intros _|easy].
    destruct (cut sep s) as [[a b]|] eqn:H; [|easy].
    assert (contains sep s = true) by (apply cut_contains; eauto).
    congruence.
Qed.

(** An occurrence anywhere is found by [contains]. *)
Lemma contains_app (sep a b : string) : contains sep (a ++ sep ++ b) = true.
Proof.
  induction a as [|c a IH]; cbn [append].
  - destruct (sep ++ b) eqn:E; cbn [contains];
      rewrite <- E, prefix_app; reflexivity.
  - cbn [contains]. rewrite IH. apply orb_true_r.
Qed.

(** [cut] finds the leftmost occurrence: no occurrence starts earlier. *)
Lemma cut_leftmost (sep s a b a' b' : string) :
  cut sep s = Some (a, b) -> s = a' ++ sep ++ b' ->
  String.length a <= String.length a'.
Proof.
  revert a b a'; induction s as [|c s IH]; intros a b a' H E.
  - cbn [cut] in H. destruct (prefix sep EmptyString); [|discriminate].
    inversion H; subst. cbn; lia.
  - cbn [cut] in H. destruct (prefix sep (String c s)) eqn:Hp.
    + inversion H; subst. cbn; lia.
    + destruct (cut sep s) as [[a0 b0]|] eqn:Hc; [|discriminate].
      inversion H; subst a b. destruct a' as [|d a'].
      * cbn in E. rewrite E, prefix_app in Hp. discriminate.
      * cbn in E. inversion E; subst. cbn.
        apply le_n_S. eapply IH; eauto.
Qed.

Lemma app_inv_length (a a' x x' : string) :
  a ++ x = a' ++ x' -> String.length a = String.length a' ->
  a = a' /\ x = x'.
Proof.
  revert a'; induction a as [|c a IH]; intros [|c' a'] H Hl;
    try discriminate; [now split|].
  cbn in H, Hl. injection H as -> H. injection Hl as Hl.
  destruct (IH _ H Hl) as [-> ->]. now split.
Qed.

(** [cut] returns the leftmost occurrence, and only that. *)
Lemma cut_first_occurrence (sep s a b : string) :
  s = a ++ sep ++ b ->
  (forall a' b', s = a' ++ sep ++ b' -> String.length a <= String.length a') ->
  cut sep s = Some (a, b).
Proof.
  intros E Hmin.
  assert (Hc : contains sep s = true) by (rewrite E; apply contains_app).
  apply cut_contains in Hc as (a0 & b0 & Hc). rewrite Hc.
  pose proof (cut_sound _ _ _ _ Hc) as E0.
  pose proof (cut_leftmost _ _ _ _ _ _ Hc E) as H1.
  pose proof (Hmin _ _ E0) as H2.
  assert (Hl : String.length a0 = String.length a) by lia.
  rewrite E in E0. symmetry in E0.
  destruct (app_inv_length _ _ _ _ E0 Hl) as [-> E1].
  destruct (app_inv_length sep sep b0 b E1 eq_refl) as [_ ->].
  reflexivity.
Qed.

Lemma cut_shorter (sep s a b : string) :
  sep <> EmptyString -> cut sep s = Some (a, b) ->
  String.length b < String.length s.
Proof.
  intros Hs H. apply cut_sound in H. subst s.
  rewrite !length_app. destruct sep; [easy|cbn; lia].
Qed.

(** *** [split] *)

Lemma split_loop_enough (sep : string) :
  sep <> EmptyString ->
  forall n m s, String.length s <= n -> String.length s <= m ->
  split_loop n sep s = split_loop m sep s.
Proof.
  intros Hs. induction n as [|n IH]; intros m s Hn Hm.
  - destruct s; [|cbn in Hn; lia].
    destruct m; cbn; [reflexivity|].
    destruct sep; [easy|reflexivity].
  - destruct m as [|m].
    + destruct s; [|cbn in Hm; lia]. cbn.
      destruct sep; [easy|reflexivity].
    + cbn [split_loop]. destruct (cut sep s) as [[a b]|] eqn:Hc; [|easy].
      f_equal. pose proof (cut_shorter _ _ _ _ Hs Hc).
      apply IH; lia.
Qed.

(** The defining equation of [str.split]. *)
Lemma split_eq (sep s : string) :
  sep <> EmptyString ->
  split sep s =
  match cut sep s with
  | None => [s]
  | Some (a, b) => a :: split sep b
  end.
Proof.
  intros Hs. unfold split. destruct s as [|c s].
  - cbn. destruct sep; [easy|reflexivity].
  - cbn [String.length split_loop].
    destruct (cut sep (String c s)) as [[a b]|] eqn:Hc; [|easy].
    f_equal. pose proof (cut_shorter _ _ _ _ Hs Hc) as Hlt.
    cbn in Hlt. apply split_loop_enough; [easy| lia | lia].
Qed.

Lemma item0_split (sep s : string) :
  sep <> EmptyString -> item 0 (split sep s) = before sep s.
Proof.
  intros Hs. rewrite split_eq by easy. unfold before.
  now destruct (cut sep s) as [[a b]|].
Qed.

Lemma item1_split (sep s a b : string) :
  sep <> EmptyString -> cut sep s = Some (a, b) ->
  item 1 (split sep s) = before sep b.
Proof.
  intros Hs H. rewrite split_eq, H by easy.
  change (item 1 (a :: split sep b)) with (item 0 (split sep b)).
  now apply item0_split.
Qed.

Lemma before_here (sep s : string) :
  prefix sep s = true -> before sep s = EmptyString.
Proof.
  intros H. unfold before. destruct s; cbn [cut]; now rewrite H.
Qed.

Lemma before_later (sep : string) (c : ascii) (s : string) :
  prefix sep (String c s) = false ->
  before sep (String c s) = String c (before sep s).
Proof.
  intros H. unfold before. cbn [cut]. rewrite H.
  now destruct (cut sep s) as [[a b]|].
Qed.

Lemma before_prefix (sep s : string) : prefix (before sep s) s = true.
Proof.
  induction s as [|c s IH].
  - unfold before. cbn [cut]. now destruct (prefix sep EmptyString).
  - destruct (prefix sep (String c s)) eqn:Hp.
    + rewrite before_here by easy. apply prefix_nil.
    + rewrite before_later by easy.
      now rewrite prefix_cons, Ascii.eqb_refl.
Qed.

Lemma before_absent (sep s : string) :
  contains sep s = false -> before sep s = s.
Proof.
  intros H. apply cut_none in H. unfold before. now rewrite H.
Qed.

(** *** [strip] and [replace] *)

Lemma isspace_replace (c : ascii) :
  isspace (if Ascii.eqb c nl_char then " "%char else c) = isspace c.
Proof.
  destruct (Ascii.eqb c nl_char) eqn:E; [|reflexivity].
  apply Ascii.eqb_eq in E. now subst c.
Qed.

Lemma replace_lstrip (s : string) :
  replace_nl (lstrip s) = lstrip (replace_nl s).
Proof.
  induction s as [|c s IH]; [reflexivity|].
  cbn [lstrip replace_nl]. rewrite isspace_replace.
  now destruct (isspace c).
Qed.

Lemma replace_rstrip (s : string) :
  replace_nl (rstrip s) = rstrip (replace_nl s).
Proof.
  induction s as [|c s IH]; [reflexivity|].
  cbn [rstrip replace_nl]. rewrite <- IH, isspace_replace.
  destruct (rstrip s) as [|d r]; cbn [replace_nl]; [|reflexivity].
  now destruct (isspace c).
Qed.

Lemma replace_strip (s : string) :
  replace_nl (strip s) = strip (replace_nl s).
Proof. unfold strip. now rewrite replace_rstrip, replace_lstrip. Qed.

Lemma lstrip_idem (s : string) : lstrip (lstrip s) = lstrip s.
Proof.
  induction s as [|c s IH]; [reflexivity|].
  cbn [lstrip]. destruct (isspace c) eqn:E; [easy|].
  cbn [lstrip]. now rewrite E.
Qed.

Lemma rstrip_idem (s : string) : rstrip (rstrip s) = rstrip s.
Proof.
  induction s as [|c s IH]; [reflexivity|].
  cbn [rstrip]. destruct (rstrip s) as [|d r] eqn:E.
  - destruct (isspace c) eqn:Ec; [reflexivity|].
    cbn [rstrip]. now rewrite Ec.
  - cbn [rstrip]. cbn [rstrip] in IH. now rewrite IH.
Qed.

Lemma lstrip_rstrip (s : string) : lstrip (rstrip s) = rstrip (lstrip s).
Proof.
  induction s as [|c s IH]; [reflexivity|].
  cbn [lstrip rstrip]. destruct (isspace c) eqn:Ec.
  - rewrite <- IH. destruct (rstrip s) as [|d r]; [reflexivity|].
    cbn [lstrip]. now rewrite Ec.
  - cbn [rstrip]. destruct (rstrip s) as [|d r]; rewrite ?Ec;
      cbn [lstrip]; now rewrite Ec.
Qed.

Lemma strip_idem (s : string) : strip (strip s) = strip s.
Proof.
  unfold strip.
  now rewrite lstrip_rstrip, lstrip_idem, rstrip_idem.
Qed.

(** Trimming before the clean-up changes nothing: the clean-up trims
    again, and a line feed is white space before and after it becomes a
    space. *)
Lemma clean_strip (s : string) :
  clean_json_str (strip s) = clean_json_str s.
Proof.
  unfold clean_json_str. now rewrite replace_strip, strip_idem.
Qed.

End StringFacts.

(** ** The primitives on concrete texts *)

Example split_three_pieces :
  split "```" "a```b```c" = ["a"; "b"; "c"].
Proof. reflexivity. Qed.

Example split_absent : split "```" "plain" = ["plain"].
Proof. reflexivity. Qed.

Example split_at_both_ends : split "```json" "```jsona````json" = [EmptyString; "a`"; EmptyString].
Proof. reflexivity. Qed.

Example strip_both_ends :
  strip (" " ++ nl ++ "{} " ++ nl) = "{}".
Proof. reflexivity. Qed.

Example lower_mixed : lower "HTTP://WWW.Amazon.IN/x" = "http://www.amazon.in/x".
Proof. reflexivity. Qed.

Example normalize_scenario : normalize fenced_example = example_document.
Proof. vm_compute. reflexivity. Qed.

Example normalize_generic_fence :
  normalize ("Here you go:" ++ nl ++ "```" ++ nl ++ example_document ++ nl
             ++ "```" ++ nl ++ "Anything else?")
  = example_document.
Proof. vm_compute. reflexivity. Qed.

Example reader_example : json_loads_ref example_document = Loaded example_object.
Proof. vm_compute. reflexivity. Qed.

Example reader_rejects_prose : json_loads_ref "Sorry, no." = DecodeError "Expecting value".
Proof. vm_compute. reflexivity. Qed.

Example reader_after_printer :
  json_loads_ref (json_dumps nested_example) = Loaded nested_example.
Proof. vm_compute. reflexivity. Qed.

Example urlparse_no_scheme :
  urlparse_ref "amazon" = Ok {| scheme := EmptyString; netloc := EmptyString |}.
Proof. vm_compute. reflexivity. Qed.

Example urlparse_full :
  urlparse_ref "https://www.amazon.in/dp/B0?ref=x"
  = Ok {| scheme := "https"; netloc := "www.amazon.in" |}.
Proof. vm_compute. reflexivity. Qed.

(** ** The normaliser *)

Section Normaliser.

Lemma fence_nonempty : fence <> EmptyString.
Proof. discriminate. Qed.

Lemma fence_json_nonempty : fence_json <> EmptyString.
Proof. discriminate. Qed.

(** A JSON-tagged fence starts with a fence. *)
Lemma tagged_is_fence (s : string) :
  prefix fence_json s = true -> prefix fence s = true.
Proof. apply prefix_trans. reflexivity. Qed.

Lemma tagged_contains_fence (s : string) :
  contains fence s = false -> contains fence_json s = false.
Proof.
  intros H. destruct (contains fence_json s) eqn:E; [|reflexivity].
  apply cut_contains in E as (a & b & E). apply cut_sound in E.
  assert (contains fence s = true); [|congruence].
  rewrite E. change fence_json with (fence ++ "json").
  rewrite app_assoc_s. apply contains_app.
Qed.

(** The first branch of the extraction, on the text [rest] that follows
    the opening JSON-tagged fence. *)
Lemma tagged_interior (rest mid post : string) :
  cut fence rest = Some (mid, post) ->
  prefix "`json" post = false ->
  prefix "``json" post = false ->
  before fence (before fence_json rest) = mid.
Proof.
  revert mid. induction rest as [|c r IH]; intros mid H H1 H2.
  - discriminate.
  - cbn [cut] in H. destruct (prefix fence (String c r)) eqn:Hp.
    + injection H as Hm Hpost. subst mid.
      assert (Hr : String c r = fence ++ post)
        by (rewrite <- Hpost; exact (prefix_drop fence _ Hp)).
      rewrite Hr.
      destruct (prefix fence_json (fence ++ post)) eqn:Hj.
      * now rewrite (before_here fence_json) by easy.
      * unfold fence in *. cbn [append] in *.
        rewrite (before_later fence_json) by easy.
        rewrite (before_later fence_json)
          by (unfold fence_json; now rewrite !prefix_cons, H1).
        rewrite (before_later fence_json)
          by (unfold fence_json; now rewrite !prefix_cons, H2).
        apply before_here. now rewrite !prefix_cons, prefix_nil.
    + destruct (cut fence r) as [[m p]|] eqn:Hc; [|discriminate].
      injection H as Hm Hpost. subst mid p.
      assert (Hj : prefix fence_json (String c r) = false).
      { destruct (prefix fence_json (String c r)) eqn:E; [|reflexivity].
        apply tagged_is_fence in E. congruence. }
      rewrite (before_later fence_json) by easy.
      assert (Hb : prefix fence (String c (before fence_json r)) = false).
      { destruct (prefix fence (String c (before fence_json r))) eqn:E;
          [|reflexivity].
        assert (prefix fence (String c r) = true); [|congruence].
        eapply prefix_trans; [exact E|].
        rewrite prefix_cons, Ascii.eqb_refl. apply before_prefix. }
      rewrite (before_later fence) by easy.
      f_equal. now apply IH.
Qed.

(** What the first branch computes, whatever follows the opening
    fence. *)
Lemma extract_tagged (response_text pre rest : string) :
  cut fence_json response_text = Some (pre, rest) ->
  extract_json_str response_text
  = strip (before fence (before fence_json rest)).
Proof.
  intros H. unfold extract_json_str.
  assert (Hc : contains fence_json response_text = true)
    by (apply cut_contains; eauto).
  rewrite Hc, (item1_split _ _ _ _ fence_json_nonempty H).
  now rewrite (item0_split _ _ fence_nonempty).
Qed.

(** What the second branch computes. *)
Lemma extract_generic (response_text pre rest : string) :
  contains fence_json response_text = false ->
  cut fence response_text = Some (pre, rest) ->
  extract_json_str response_text = strip (before fence rest).
Proof.
  intros Hj H. unfold extract_json_str.
  assert (Hc : contains fence response_text = true)
    by (apply cut_contains; eauto).
  now rewrite Hj, Hc, (item1_split _ _ _ _ fence_nonempty H).
Qed.

Lemma extract_plain (response_text : string) :
  contains fence response_text = false ->
  extract_json_str response_text = response_text.
Proof.
  intros H. unfold extract_json_str.
  now rewrite (tagged_contains_fence _ H), H.
Qed.

End Normaliser.

(** ** Running the handlers *)

Section HandlerFacts.

Variable J : Type.
Variable json_loads : string -> loaded J.
Variable urlparse : string -> result ParseResult.
Variable env : Env.

Lemma run_parse_ok (response_text : string) (v : J) :
  json_loads (normalize response_text) = Loaded v ->
  run env (parse_and_respond J json_loads response_text)
  = (Ok {| body := Analysis v; status := 200 |}, []).
Proof.
  intros H. unfold parse_and_respond. fold (normalize response_text).
  now rewrite H.
Qed.

Lemma run_parse_err (response_text e : string) :
  json_loads (normalize response_text) = DecodeError e ->
  run env (parse_and_respond J json_loads response_text)
  = (Ok {| body := Fields [("error", parse_failed_message);
                           ("raw_response", response_text)];
           status := 500 |},
     [ Logged LvError ("Error decoding JSON: " ++ e);
       Logged LvDebug ("Response text: " ++ response_text);
       Logged LvDebug ("Extracted JSON string: " ++ normalize response_text) ]).
Proof.
  intros H. unfold parse_and_respond. fold (normalize response_text).
  now rewrite H.
Qed.

(** An exception of [json.loads] that is not a decode error leaves
    [parse_and_respond] uncaught. *)
Lemma run_parse_other (response_text e : string) :
  json_loads (normalize response_text) = OtherError e ->
  run env (parse_and_respond J json_loads response_text) = (Err e, []).
Proof.
  intros H. unfold parse_and_respond. fold (normalize response_text).
  now rewrite H.
Qed.

(** Under the handler's outer [try], only such an exception reaches the
    handler [h]. *)
Lemma run_try_parse (response_text : string)
      (h : string -> Prog (HttpResponse J)) :
  run env (try_except (parse_and_respond J json_loads response_text) h)
  = match json_loads (normalize response_text) with
    | OtherError e => run env (h e)
    | _ => run env (parse_and_respond J json_loads response_text)
    end.
Proof.
  unfold parse_and_respond. fold (normalize response_text).
  now destruct (json_loads (normalize response_text)).
Qed.

(** [/analyze] when the provider answers [response_text]. *)
Lemma run_analyze (m : Model) (data : dict) (review response_text : string) :
  dict_get data "review" EmptyString = review ->
  is_empty review = false ->
  env (generate_content m (analyze_prompt review))
  = Ok {| text := Ok response_text |} ->
  run env (analyze_review J json_loads (Some m) data)
  = (fst (run env (try_except
                     (parse_and_respond J json_loads response_text)
                     (unexpected "Error analyzing review: "))),
     Called (generate_content m (analyze_prompt review))
     :: snd (run env (try_except
                        (parse_and_respond J json_loads response_text)
                        (unexpected "Error analyzing review: ")))).
Proof.
  intros Hd Hr He. unfold analyze_review. rewrite Hd, Hr.
  cbn [generate call bind try_except run]. rewrite He.
  cbn [text of_result bind].
  now destruct (run env _).
Qed.

(** The two prompts of [/scrape] never coincide. *)
Lemma prompts_distinct (content_head review_text : string) :
  review_prompt content_head <> scrape_analysis_prompt review_text.
Proof.
  unfold review_prompt, scrape_analysis_prompt. cbn [join_lines append nl].
  intros H. discriminate H.
Qed.

(** A [try] whose handler returns always returns. *)
Lemma try_except_total {A : Type} (p : Prog A) (h : string -> Prog A) :
  (forall e, exists a t, run env (h e) = (Ok a, t)) ->
  exists a t, run env (try_except p h) = (Ok a, t).
Proof.
  intros Hh. induction p as [a|e|o k IH|lvl msg k IH]; cbn [try_except run].
  - eauto.
  - apply Hh.
  - destruct (IH (env o)) as (a & t & H). rewrite H. eauto.
  - destruct IH as (a & t & H). rewrite H. eauto.
Qed.

(** Neither handler lets an exception escape: whatever the world does, a
    response is returned. *)
Lemma analyze_review_total (model : option Model) (data : dict) :
  exists resp t,
    run env (analyze_review J json_loads model data) = (Ok resp, t).
Proof.
  apply try_except_total. intros e. unfold unexpected. cbn [run]. eauto.
Qed.

Lemma scrape_product_total (model : option Model) (data : dict) :
  exists resp t,
    run env (scrape_product J json_loads urlparse model data) = (Ok resp, t).
Proof.
  apply try_except_total. intros e. unfold unexpected. cbn [run]. eauto.
Qed.

(** A step that returns, followed by the rest, inside a [try]. *)
Lemma run_try_bind_ok {A B : Type} (p : Prog A) (f : A -> Prog B)
      (h : string -> Prog B) (a : A) (t : list Event) :
  run env p = (Ok a, t) ->
  run env (try_except (bind p f) h)
  = (fst (run env (try_except (f a) h)),
     (t ++ snd (run env (try_except (f a) h)))%list).
Proof.
  revert t. induction p as [a'|e|o k IH|lvl msg k IH]; intros t H.
  - cbn in H. injection H as -> <-. cbn [bind app].
    now destruct (run env _).
  - discriminate.
  - cbn [run] in H. destruct (run env (k (env o))) as [r t'] eqn:E.
    injection H as -> <-. cbn [bind try_except run].
    rewrite (IH _ _ E). reflexivity.
  - cbn [run] in H. destruct (run env k) as [r t'] eqn:E.
    injection H as -> <-. cbn [bind try_except run].
    rewrite (IH _ eq_refl). reflexivity.
Qed.

(** [/scrape] once the URL has passed validation. *)
Lemma scrape_valid (model : option Model) (data : dict) (url : string)
      (p : ParseResult) :
  dict_get data "url" EmptyString = url ->
  is_empty url = false ->
  urlparse url = Ok p ->
  is_empty (scheme p) = false ->
  is_empty (netloc p) = false ->
  scrape_product J json_loads urlparse model data
  = try_except
      (bind (fetch_content J url) (fun fetched =>
         match fetched with
         | inl early => Ret early
         | inr content => review_and_analyze J json_loads model content
         end))
      (unexpected "Error processing product URL: ").
Proof.
  intros Hd Hu Hp Hs Hn. unfold scrape_product.
  now rewrite Hd, Hu, Hp, Hs, Hn.
Qed.

Lemma run_download_failed (url : string) (d : option string) :
  env (fetch_url url) = Ok d ->
  falsy d = true ->
  run env (fetch_content J url)
  = let '(r, t) := run env (download_failed J url) in
    (r, Logged LvDebug ("Attempting to scrape content from: " ++ url)
        :: Called (fetch_url url) :: t).
Proof.
  intros He Hf. unfold fetch_content.
  cbn [try_except bind call run]. rewrite He.
  assert (Hd : try_except (download_failed J url)
                 (fun e =>
                    Log LvError ("Error scraping website: " ++ e)
                      (Ret (inl (error_response
                                   ("Error scraping website: " ++ e
                                    ++ ". Try using a different URL.") 500))))
               = download_failed J url).
  { unfold download_failed. now destruct (existsb _ _). }
  destruct d as [html|]; cbn [bind try_except].
  - destruct html; [|discriminate]. cbn [is_empty]. rewrite Hd.
    now destruct (run env _).
  - rewrite Hd. now destruct (run env _).
Qed.

(** Download failed on a URL that holds a configured fragment. *)
Lemma run_bot_protected (model : option Model) (data : dict) (url : string)
      (p : ParseResult) (d : option string) :
  dict_get data "url" EmptyString = url ->
  is_empty url = false ->
  urlparse url = Ok p ->
  is_empty (scheme p) = false ->
  is_empty (netloc p) = false ->
  env (fetch_url url) = Ok d ->
  falsy d = true ->
  existsb (fun site => contains site (lower url)) e_commerce_sites = true ->
  run env (scrape_product J json_loads urlparse model data)
  = (Ok (error_response bot_protection_message 429),
     [ Logged LvDebug ("Attempting to scrape content from: " ++ url);
       Called (fetch_url url);
       Logged LvWarning ("Likely bot protection encountered on " ++ url) ]).
Proof.
  intros Hd Hu Hp Hs Hn He Hf Hx.
  rewrite (scrape_valid model data url p) by assumption.
  erewrite run_try_bind_ok.
  2:{ rewrite (run_download_failed url d) by assumption.
      unfold download_failed. rewrite Hx. cbn [run]. reflexivity. }
  reflexivity.
Qed.

(** Download failed on any other URL. *)
Lemma run_fetch_failed (model : option Model) (data : dict) (url : string)
      (p : ParseResult) (d : option string) :
  dict_get data "url" EmptyString = url ->
  is_empty url = false ->
  urlparse url = Ok p ->
  is_empty (scheme p) = false ->
  is_empty (netloc p) = false ->
  env (fetch_url url) = Ok d ->
  falsy d = true ->
  existsb (fun site => contains site (lower url)) e_commerce_sites = false ->
  run env (scrape_product J json_loads urlparse model data)
  = (Ok (error_response fetch_failed_message 400),
     [ Logged LvDebug ("Attempting to scrape content from: " ++ url);
       Called (fetch_url url);
       Logged LvError ("Failed to download content from URL: " ++ url) ]).
Proof.
  intros Hd Hu Hp Hs Hn He Hf Hx.
  rewrite (scrape_valid model data url p) by assumption.
  erewrite run_try_bind_ok.
  2:{ rewrite (run_download_failed url d) by assumption.
      unfold download_failed. rewrite Hx. cbn [run]. reflexivity. }
  reflexivity.
Qed.

(** Download and extraction succeeded. *)
Lemma run_fetch_content (url html content : string) :
  env (fetch_url url) = Ok (Some html) ->
  is_empty html = false ->
  env (extract html) = Ok (Some content) ->
  100 <= String.length content ->
  run env (fetch_content J url)
  = (Ok (inr content),
     [ Logged LvDebug ("Attempting to scrape content from: " ++ url);
       Called (fetch_url url);
       Called (extract html);
       Logged LvDebug ("Successfully extracted content from URL. Length: "
                       ++ str_of_nat (String.length content)) ]).
Proof.
  intros Hf Hh Hx Hl. unfold fetch_content.
  cbn [try_except bind call run]. rewrite Hf. cbn [bind try_except].
  rewrite Hh. unfold extract_content.
  cbn [try_except bind call run]. rewrite Hx. cbn [bind try_except].
  assert (Hc : is_empty content || (String.length content <? 100) = false).
  { apply orb_false_iff. split.
    - destruct content; [cbn in Hl; lia|reflexivity].
    - now apply Nat.ltb_ge. }
  rewrite Hc. reflexivity.
Qed.

End HandlerFacts.

(** ** Compact texts *)

Section Compact.

Lemma replace_no_nl (s : string) :
  contains nl s = false -> replace_nl s = s.
Proof.
  induction s as [|c s IH]; [reflexivity|].
  cbn [contains replace_nl]. intros H.
  apply orb_false_iff in H as [Hp Hc].
  unfold nl in Hp. rewrite prefix_cons, prefix_nil, andb_true_r in Hp.
  rewrite Ascii.eqb_sym in Hp. rewrite Hp. now rewrite IH.
Qed.

Lemma lstrip_no_leading (s : string) :
  leading_space s = false -> lstrip s = s.
Proof. destruct s as [|c s]; cbn; [easy|]. now intros ->. Qed.

Lemma rstrip_no_trailing (s : string) :
  trailing_space s = false -> rstrip s = s.
Proof.
  induction s as [|c s IH]; [reflexivity|].
  destruct s as [|d s].
  - cbn. now intros ->.
  - intros H. change (trailing_space (String d s) = false) in H.
    specialize (IH H). cbn [rstrip] in *. now rewrite IH.
Qed.

Lemma clean_compact (s : string) : compact s = true -> clean_json_str s = s.
Proof.
  unfold compact. intros H.
  apply andb_true_iff in H as [H Ht]. apply andb_true_iff in H as [Hn Hl].
  apply negb_true_iff in Hn, Hl, Ht.
  unfold clean_json_str, strip.
  now rewrite replace_no_nl, lstrip_no_leading, rstrip_no_trailing.
Qed.

(** *** Minified documents are compact *)

Lemma contains_nl_cons (c : ascii) (s : string) :
  contains nl (String c s) = Ascii.eqb nl_char c || contains nl s.
Proof.
  cbn [contains]. unfold nl at 1.
  now rewrite prefix_cons, prefix_nil, andb_true_r.
Qed.

Lemma contains_nl_app (a b : string) :
  contains nl (a ++ b) = contains nl a || contains nl b.
Proof.
  induction a as [|c a IH].
  - cbn [append]. destruct b; reflexivity.
  - cbn [append]. now rewrite !contains_nl_cons, IH, orb_assoc.
Qed.

Lemma trailing_last (a : string) (c : ascii) :
  trailing_space (a ++ String c EmptyString) = isspace c.
Proof.
  induction a as [|d a IH]; [reflexivity|].
  cbn [append]. destruct a; exact IH.
Qed.

(** A text between two characters that are not white space, without line
    feed inside. *)
Lemma compact_wrap (c1 c2 : ascii) (mid : string) :
  isspace c1 = false -> isspace c2 = false ->
  contains nl mid = false ->
  compact (String c1 (mid ++ String c2 EmptyString)) = true.
Proof.
  intros H1 H2 Hm. unfold compact.
  assert (Hn : forall c, isspace c = false -> Ascii.eqb nl_char c = false).
  { intros c Hc. destruct (Ascii.eqb nl_char c) eqn:E; [|reflexivity].
    apply Ascii.eqb_eq in E. subst c. discriminate. }
  rewrite contains_nl_cons, contains_nl_app, contains_nl_cons, Hm.
  rewrite (Hn _ H1), (Hn _ H2).
  change (trailing_space (String c1 (mid ++ String c2 EmptyString)))
    with (trailing_space ((String c1 mid) ++ String c2 EmptyString)).
  rewrite trailing_last. cbn [leading_space]. rewrite H1, H2.
  now destruct mid.
Qed.

Lemma solid_no_nl (s : string) : solid s = true -> contains nl s = false.
Proof.
  induction s as [|c s IH]; [reflexivity|].
  cbn [solid]. intros H. apply andb_true_iff in H as [Hc Hs].
  rewrite contains_nl_cons, (IH Hs), orb_false_r.
  destruct (Ascii.eqb nl_char c) eqn:E; [|reflexivity].
  apply Ascii.eqb_eq in E. subst c. discriminate.
Qed.

Lemma solid_no_trailing (s : string) : solid s = true -> trailing_space s = false.
Proof.
  induction s as [|c s IH]; [reflexivity|].
  cbn [solid]. intros H. apply andb_true_iff in H as [Hc Hs].
  apply negb_true_iff in Hc. destruct s; [exact Hc|]. now apply IH.
Qed.

Lemma solid_compact (s : string) : solid s = true -> compact s = true.
Proof.
  intros H. unfold compact.
  rewrite (solid_no_nl _ H), (solid_no_trailing _ H).
  destruct s as [|c s]; [reflexivity|].
  cbn [solid] in H. apply andb_true_iff in H as [Hc _].
  cbn [leading_space]. now rewrite Hc.
Qed.

Lemma solid_uint (d : Decimal.uint) : solid (NilEmpty.string_of_uint d) = true.
Proof. induction d; cbn [NilEmpty.string_of_uint solid]; auto. Qed.

Lemma solid_int (z : Z) : solid (NilZero.string_of_int (Z.to_int z)) = true.
Proof.
  assert (H : forall d, solid (NilZero.string_of_uint d) = true).
  { intros d. unfold NilZero.string_of_uint.
    destruct d; try reflexivity; apply solid_uint. }
  unfold NilZero.string_of_int.
  destruct (Z.to_int z) as [d|d]; [apply H|].
  cbn [solid]. now rewrite H.
Qed.

Lemma escape_char_no_nl (c : ascii) :
  contains nl (JsonPrint.escape_char c) = false.
Proof. destruct c as [[] [] [] [] [] [] [] []]; vm_compute; reflexivity. Qed.

Lemma escape_no_nl (s : string) : contains nl (JsonPrint.escape s) = false.
Proof.
  induction s as [|c s IH]; [reflexivity|].
  cbn [JsonPrint.escape]. now rewrite contains_nl_app, escape_char_no_nl, IH.
Qed.

Lemma quote_compact (s : string) : compact (JsonPrint.quote s) = true.
Proof.
  unfold JsonPrint.quote, dq.
  apply compact_wrap; [reflexivity|reflexivity|apply escape_no_nl].
Qed.

Lemma compact_no_nl (s : string) : compact s = true -> contains nl s = false.
Proof.
  unfold compact. intros H.
  apply andb_true_iff in H as [H _]. apply andb_true_iff in H as [H _].
  now apply negb_true_iff in H.
Qed.

Lemma join_no_nl (l : list string) :
  Forall (fun x => contains nl x = false) l ->
  contains nl (JsonPrint.join_with "," l) = false.
Proof.
  induction 1 as [|x l Hx Hl IH]; [reflexivity|].
  cbn [JsonPrint.join_with]. destruct l as [|y l]; [exact Hx|].
  now rewrite !contains_nl_app, Hx, IH.
Qed.

(** The minified rendering of any value is compact. *)
Lemma json_dumps_compact : forall v : json, compact (json_dumps v) = true.
Proof.
  fix IH 1. intros [|b|z|s|items|members]; cbn [json_dumps].
  - reflexivity.
  - now destruct b.
  - apply solid_compact, solid_int.
  - apply quote_compact.
  - apply compact_wrap; [reflexivity|reflexivity|].
    apply join_no_nl.
    induction items as [|x items IHitems]; constructor;
      [apply compact_no_nl, IH|exact IHitems].
  - apply compact_wrap; [reflexivity|reflexivity|].
    apply join_no_nl.
    induction members as [|[k x] members IHmembers]; constructor;
      [|exact IHmembers].
    rewrite !contains_nl_app.
    rewrite (compact_no_nl _ (quote_compact k)), (compact_no_nl _ (IH x)).
    reflexivity.
Qed.

End Compact.

(** ** The claims about the normaliser *)

(** C1, as amended.  When the response holds a JSON-tagged fence, and the
    next fence after it is not the head of a run of four or five back-ticks
    that opens another JSON-tagged block, the normaliser keeps exactly the
    text between the two fences, replaces its line feeds by spaces, trims
    it, and hands that string and nothing else to the JSON reader.  On the
    fenced response of the scenario the handler answers 200 with the object
    Sentiment = positive, Score = 8. *)
Theorem C1_tagged_fence_interior :
  forall (J : Type) (json_loads : string -> loaded J) (env : Env)
         (response_text pre rest mid post : string),
    cut fence_json response_text = Some (pre, rest) ->
    cut fence rest = Some (mid, post) ->
    prefix "`json" post = false ->
    prefix "``json" post = false ->
    response_text = pre ++ fence_json ++ mid ++ fence ++ post
    /\ normalize response_text = clean_json_str mid
    /\ (forall v, json_loads (clean_json_str mid) = Loaded v ->
        run env (parse_and_respond J json_loads response_text)
        = (Ok {| body := Analysis v; status := 200 |}, []))
    /\ (forall e, json_loads (clean_json_str mid) = DecodeError e ->
        fst (run env (parse_and_respond J json_loads response_text))
        = Ok {| body := Fields [("error", parse_failed_message);
                                ("raw_response", response_text)];
                status := 500 |})
    /\ normalize fenced_example = example_document
    /\ run (env_answering fenced_example)
           (analyze_review json json_loads_ref (Some gemini_flash)
                           [("review", "Great phone")])
       = (Ok {| body := Analysis example_object; status := 200 |},
          [Called (generate_content gemini_flash (analyze_prompt "Great phone"))]).
Proof.
  intros J json_loads env response_text pre rest mid post Ho Hc H1 H2.
  assert (Hn : normalize response_text = clean_json_str mid).
  { unfold normalize. rewrite (extract_tagged _ _ _ Ho).
    rewrite (tagged_interior _ _ _ Hc H1 H2). apply clean_strip. }
  split; [|split; [exact Hn|split; [|split; [|split]]]].
  - apply cut_sound in Ho, Hc. now subst.
  - intros v Hv. apply run_parse_ok. now rewrite Hn.
  - intros e He. rewrite (run_parse_err J json_loads env _ e); [reflexivity|].
    now rewrite Hn.
  - vm_compute. reflexivity.
  - vm_compute. reflexivity.
Qed.

Lemma C1_tagged_fence_interior_witness :
  (cut fence_json fenced_example
   = Some (EmptyString, nl ++ example_document ++ nl ++ fence)
   /\ cut fence (nl ++ example_document ++ nl ++ fence)
      = Some (nl ++ example_document ++ nl, EmptyString)
   /\ prefix "`json" EmptyString = false
   /\ prefix "``json" EmptyString = false)
  /\ normalize fenced_example = clean_json_str (nl ++ example_document ++ nl).
Proof.
  split; [repeat split; vm_compute; reflexivity|].
  apply (C1_tagged_fence_interior json json_loads_ref (env_answering fenced_example)
           fenced_example EmptyString (nl ++ example_document ++ nl ++ fence)
           (nl ++ example_document ++ nl) EmptyString);
    vm_compute; reflexivity.
Defined.

(** C1 fails as stated: in this response the text between the opening
    fence and the next fence is [1], a JSON document, yet the normaliser
    keeps [1`] and the handler answers with the parse failure. *)
Lemma C1_counterexample :
  cut fence_json "```json1````json" = Some (EmptyString, "1````json")
  /\ cut fence "1````json" = Some ("1", "`json")
  /\ json_loads_ref (clean_json_str "1") = Loaded (JInt 1)
  /\ normalize "```json1````json" = "1`"
  /\ normalize "```json1````json" <> clean_json_str "1"
  /\ fst (run (env_answering "```json1````json")
              (analyze_review json json_loads_ref (Some gemini_flash)
                              [("review", "Great phone")]))
     = Ok {| body := Fields [("error", parse_failed_message);
                             ("raw_response", "```json1````json")];
             status := 500 |}.
Proof.
  repeat split; try (vm_compute; reflexivity).
  vm_compute. discriminate.
Qed.

(** C2.  A text without fence that is compact, as every minified JSON
    document is, goes through the normaliser unchanged, so the handler's
    reader sees the very string a direct call would see and yields the same
    value.  In particular the minified rendering of any value, when it
    holds no fence, is normalised to itself. *)
Theorem C2_compact_document_unchanged :
  forall (J : Type) (json_loads : string -> loaded J) (env : Env) (s : string),
    contains fence s = false ->
    compact s = true ->
    normalize s = s
    /\ json_loads (normalize s) = json_loads s
    /\ (forall v, json_loads s = Loaded v ->
        run env (parse_and_respond J json_loads s)
        = (Ok {| body := Analysis v; status := 200 |}, []))
    /\ (forall doc : json,
          contains fence (json_dumps doc) = false ->
          normalize (json_dumps doc) = json_dumps doc
          /\ json_loads (normalize (json_dumps doc))
             = json_loads (json_dumps doc)).
Proof.
  intros J json_loads env s Hf Hc.
  assert (Hn : forall t, contains fence t = false -> compact t = true ->
               normalize t = t).
  { intros t Ht Hct. unfold normalize. rewrite (extract_plain _ Ht).
    now apply clean_compact. }
  repeat split.
  - now apply Hn.
  - now rewrite Hn.
  - intros v Hv. apply run_parse_ok. now rewrite Hn.
  - apply Hn; [assumption|apply json_dumps_compact].
  - rewrite Hn; [reflexivity|assumption|apply json_dumps_compact].
Qed.

Lemma C2_compact_document_unchanged_witness :
  (contains fence example_document = false /\ compact example_document = true)
  /\ json_dumps example_object = example_document
  /\ json_loads_ref (normalize example_document) = Loaded example_object.
Proof.
  split; [split; vm_compute; reflexivity|].
  split; [vm_compute; reflexivity|].
  rewrite (proj1 (proj2 (C2_compact_document_unchanged
                           json json_loads_ref (env_answering EmptyString)
                           example_document eq_refl eq_refl))).
  vm_compute. reflexivity.
Defined.

(** C3, as amended.  When the provider's text holds no fence, the handler
    reads all of it, after the line feeds have become spaces and the ends
    are trimmed.  When the reader rejects that string with a decode error,
    the handler does not raise: it answers 500 with the error message and
    the raw text, and writes the raw text and the extracted string to the
    debug log.  When the reader raises anything else, the handler answers
    the generic 500 with the text of the exception and without the raw
    text.  Either way the provider has been called exactly once. *)
Theorem C3_plain_text_parse_failure :
  forall (J : Type) (json_loads : string -> loaded J) (env : Env)
         (m : Model) (data : dict) (review response_text : string),
    dict_get data "review" EmptyString = review ->
    is_empty review = false ->
    env (generate_content m (analyze_prompt review))
    = Ok {| text := Ok response_text |} ->
    contains fence response_text = false ->
    extract_json_str response_text = response_text
    /\ (forall e,
          json_loads (clean_json_str response_text) = DecodeError e ->
          run env (analyze_review J json_loads (Some m) data)
          = (Ok {| body := Fields [("error", parse_failed_message);
                                   ("raw_response", response_text)];
                   status := 500 |},
             [ Called (generate_content m (analyze_prompt review));
               Logged LvError ("Error decoding JSON: " ++ e);
               Logged LvDebug ("Response text: " ++ response_text);
               Logged LvDebug ("Extracted JSON string: "
                               ++ clean_json_str response_text) ]))
    /\ (forall e,
          json_loads (clean_json_str response_text) = OtherError e ->
          run env (analyze_review J json_loads (Some m) data)
          = (Ok (error_response ("An error occurred: " ++ e) 500),
             [ Called (generate_content m (analyze_prompt review));
               Logged LvError ("Error analyzing review: " ++ e) ])).
Proof.
  intros J json_loads env m data review response_text Hd Hr He Hf.
  pose proof (extract_plain _ Hf) as Hx. split; [exact Hx|].
  assert (Hn : normalize response_text = clean_json_str response_text)
    by (unfold normalize; now rewrite Hx).
  split; intros e Hj;
    rewrite (run_analyze J json_loads env m data review response_text Hd Hr He),
            run_try_parse, Hn, Hj.
  - rewrite (run_parse_err J json_loads env response_text e) by now rewrite Hn.
    cbn [fst snd]. now rewrite Hn.
  - reflexivity.
Qed.

Lemma C3_plain_text_parse_failure_witness :
  (dict_get [("review", "Great phone")] "review" EmptyString = "Great phone"
   /\ is_empty "Great phone" = false
   /\ env_answering "Sorry, no." (generate_content gemini_flash
                                    (analyze_prompt "Great phone"))
      = Ok {| text := Ok "Sorry, no." |}
   /\ contains fence "Sorry, no." = false)
  /\ json_loads_ref (clean_json_str "Sorry, no.") = DecodeError "Expecting value"
  /\ fst (run (env_answering "Sorry, no.")
              (analyze_review json json_loads_ref (Some gemini_flash)
                              [("review", "Great phone")]))
     = Ok {| body := Fields [("error", parse_failed_message);
                             ("raw_response", "Sorry, no.")];
             status := 500 |}.
Proof.
  split; [repeat split; vm_compute; reflexivity|].
  split; [vm_compute; reflexivity|].
  rewrite (proj1 (proj2 (C3_plain_text_parse_failure json json_loads_ref
                           (env_answering "Sorry, no.") gemini_flash
                           [("review", "Great phone")] "Great phone"
                           "Sorry, no." eq_refl eq_refl eq_refl eq_refl))
                 "Expecting value");
    [reflexivity|vm_compute; reflexivity].
Defined.

(** C3 fails as stated: the 500 response holds the error message and the
    raw text only.  Here the extracted string differs from the raw text and
    occurs in no field of the response. *)
Lemma C3_counterexample :
  contains fence ("Sorry," ++ nl ++ "I cannot help.") = false
  /\ normalize ("Sorry," ++ nl ++ "I cannot help.") = "Sorry, I cannot help."
  /\ fst (run (env_answering ("Sorry," ++ nl ++ "I cannot help."))
              (analyze_review json json_loads_ref (Some gemini_flash)
                              [("review", "Great phone")]))
     = Ok {| body := Fields [("error", parse_failed_message);
                             ("raw_response",
                              "Sorry," ++ nl ++ "I cannot help.")];
             status := 500 |}
  /\ existsb (fun field => contains "Sorry, I cannot help." (snd field))
             [("error", parse_failed_message);
              ("raw_response", "Sorry," ++ nl ++ "I cannot help.")]
     = false.
Proof. repeat split; vm_compute; reflexivity. Qed.

(** C10.  When no fence follows the opening marker, be it the JSON-tagged
    fence or, in its absence, the plain fence, the normaliser keeps all the
    text from the end of the marker to the end of the response: it neither
    fails nor goes back to the raw text, and what the reader is given is
    that text, cleaned as always. *)
Theorem C10_unclosed_fence :
  forall (J : Type) (json_loads : string -> loaded J) (env : Env)
         (response_text pre rest : string),
    (cut fence_json response_text = Some (pre, rest)
     \/ (contains fence_json response_text = false
         /\ cut fence response_text = Some (pre, rest))) ->
    contains fence rest = false ->
    extract_json_str response_text = strip rest
    /\ normalize response_text = clean_json_str rest
    /\ (forall v, json_loads (clean_json_str rest) = Loaded v ->
        run env (parse_and_respond J json_loads response_text)
        = (Ok {| body := Analysis v; status := 200 |}, []))
    /\ (forall e, json_loads (clean_json_str rest) = DecodeError e ->
        fst (run env (parse_and_respond J json_loads response_text))
        = Ok {| body := Fields [("error", parse_failed_message);
                                ("raw_response", response_text)];
                status := 500 |}).
Proof.
  intros J json_loads env response_text pre rest Ho Hr.
  assert (Hx : extract_json_str response_text = strip rest).
  { destruct Ho as [Ho|[Hj Ho]].
    - rewrite (extract_tagged _ _ _ Ho).
      rewrite (before_absent fence_json) by now apply tagged_contains_fence.
      now rewrite before_absent.
    - rewrite (extract_generic _ _ _ Hj Ho). now rewrite before_absent. }
  assert (Hn : normalize response_text = clean_json_str rest)
    by (unfold normalize; rewrite Hx; apply clean_strip).
  repeat split; [exact Hx|exact Hn| |].
  - intros v Hv. apply run_parse_ok. now rewrite Hn.
  - intros e He. rewrite (run_parse_err J json_loads env _ e); [reflexivity|].
    now rewrite Hn.
Qed.

Lemma C10_unclosed_fence_witness :
  ((cut fence_json ("Here: ```json " ++ example_document)
    = Some ("Here: ", " " ++ example_document)
    \/ (contains fence_json ("Here: ```json " ++ example_document) = false
        /\ cut fence ("Here: ```json " ++ example_document)
           = Some ("Here: ", " " ++ example_document)))
   /\ contains fence (" " ++ example_document) = false)
  /\ normalize ("Here: ```json " ++ example_document) = example_document.
Proof.
  split; [split; [left|]; vm_compute; reflexivity|].
  rewrite (proj1 (proj2 (C10_unclosed_fence json json_loads_ref
                           (env_answering EmptyString)
                           ("Here: ```json " ++ example_document)
                           "Here: " (" " ++ example_document)
                           (or_introl eq_refl) eq_refl))).
  vm_compute. reflexivity.
Defined.

(** ** The claims about the handlers *)

(** C7.  A request whose review text is empty, or absent, is answered 400
    with the message that no review text was provided, and nothing at all
    happens besides: no call to the provider, no log record. *)
Theorem C7_empty_review_rejected :
  forall (J : Type) (json_loads : string -> loaded J) (env : Env)
         (model : option Model) (data : dict),
    dict_get data "review" EmptyString = EmptyString ->
    run env (analyze_review J json_loads model data)
    = (Ok (error_response "No review text provided" 400), []).
Proof.
  intros J json_loads env model data H. unfold analyze_review.
  now rewrite H.
Qed.

Lemma C7_empty_review_rejected_witness :
  dict_get [("review", EmptyString)] "review" EmptyString = EmptyString
  /\ run (env_answering example_document)
         (analyze_review json json_loads_ref (Some gemini_flash)
                         [("review", EmptyString)])
     = (Ok (error_response "No review text provided" 400), []).
Proof.
  split; [reflexivity|].
  apply (C7_empty_review_rejected json json_loads_ref
           (env_answering example_document) (Some gemini_flash)
           [("review", EmptyString)]).
  reflexivity.
Defined.

(** C4, as amended.  A URL whose parsed form lacks the scheme or has an
    empty network location is answered 400 before anything else happens:
    the trace is empty, so there is no download and no call to the
    provider.  The message is the one for an invalid format, or, for the
    empty URL, the one for a missing URL.  The test reads the network
    location, not the host name. *)
Theorem C4_invalid_url_rejected :
  forall (J : Type) (json_loads : string -> loaded J)
         (urlparse : string -> result ParseResult) (env : Env)
         (model : option Model) (data : dict) (p : ParseResult),
    urlparse (dict_get data "url" EmptyString) = Ok p ->
    is_empty (scheme p) || is_empty (netloc p) = true ->
    exists msg,
      run env (scrape_product J json_loads urlparse model data)
      = (Ok (error_response msg 400), [])
      /\ (is_empty (dict_get data "url" EmptyString) = false ->
          msg = "Invalid URL format")
      /\ (is_empty (dict_get data "url" EmptyString) = true ->
          msg = "No URL provided").
Proof.
  intros J json_loads urlparse env model data p Hp Hbad.
  unfold scrape_product.
  destruct (is_empty (dict_get data "url" EmptyString)) eqn:Hu.
  - exists "No URL provided". repeat split; easy.
  - exists "Invalid URL format". rewrite Hp, Hbad. repeat split; easy.
Qed.

Lemma C4_invalid_url_rejected_witness :
  (urlparse_ref (dict_get [("url", "amazon")] "url" EmptyString)
   = Ok {| scheme := EmptyString; netloc := EmptyString |}
   /\ is_empty EmptyString || is_empty EmptyString = true)
  /\ exists msg,
      run (env_page (repeat_char "a" 200) example_document)
          (scrape_product json json_loads_ref urlparse_ref
                          (Some gemini_flash) [("url", "amazon")])
      = (Ok (error_response msg 400), [])
      /\ (is_empty (dict_get [("url", "amazon")] "url" EmptyString) = false ->
          msg = "Invalid URL format")
      /\ (is_empty (dict_get [("url", "amazon")] "url" EmptyString) = true ->
          msg = "No URL provided").
Proof.
  split; [split; vm_compute; reflexivity|].
  apply (C4_invalid_url_rejected json json_loads_ref urlparse_ref
           (env_page (repeat_char "a" 200) example_document)
           (Some gemini_flash) [("url", "amazon")]
           {| scheme := EmptyString; netloc := EmptyString |});
    vm_compute; reflexivity.
Defined.

(** C4 fails as stated: the parsed form of this URL has no host, only a
    port, yet its network location is not empty; the handler accepts it,
    downloads the page and goes on to the provider. *)
Lemma C4_counterexample :
  urlparse_ref "http://:80/x" = Ok {| scheme := "http"; netloc := ":80" |}
  /\ hostname ":80" = None
  /\ fst (run (env_page (repeat_char "a" 120) fenced_example)
              (scrape_product json json_loads_ref urlparse_ref
                              (Some gemini_flash) [("url", "http://:80/x")]))
     = Ok {| body := Analysis example_object; status := 200 |}
  /\ network_calls
       (snd (run (env_page (repeat_char "a" 120) fenced_example)
                 (scrape_product json json_loads_ref urlparse_ref
                                 (Some gemini_flash) [("url", "http://:80/x")])))
     = [ Called (fetch_url "http://:80/x");
         Called (extract "<html>page</html>");
         Called (generate_content gemini_flash
                   (review_prompt (take 8000 (repeat_char "a" 120))));
         Called (generate_content gemini_flash
                   (scrape_analysis_prompt fenced_example)) ].
Proof. repeat split; vm_compute; reflexivity. Qed.

(** ** Fragments in lower-cased URLs *)

Section Fragments.

Lemma lower_app (a b : string) : lower (a ++ b) = lower a ++ lower b.
Proof. induction a; cbn; congruence. Qed.

Lemma contains_inside (x a s b : string) :
  contains x s = true -> contains x (a ++ s ++ b) = true.
Proof.
  intros H. apply cut_contains in H as (u & v & H).
  apply cut_sound in H. subst s.
  replace (a ++ (u ++ x ++ v) ++ b) with ((a ++ u) ++ x ++ (v ++ b))
    by now rewrite !app_assoc_s.
  apply contains_app.
Qed.

Lemma site_lower (site : string) :
  In site e_commerce_sites -> lower site = site.
Proof.
  cbn. intros H.
  repeat (destruct H as [<-|H]; [reflexivity|]). easy.
Qed.

(** A fragment of the raw URL is still there after lower-casing. *)
Lemma site_survives_lower (site url : string) :
  In site e_commerce_sites ->
  contains site url = true -> contains site (lower url) = true.
Proof.
  intros Hs H. apply cut_contains in H as (u & v & H).
  apply cut_sound in H. subst url.
  rewrite !lower_app, (site_lower _ Hs). apply contains_app.
Qed.

Lemma site_found (site url : string) :
  In site e_commerce_sites ->
  contains site (lower url) = true ->
  existsb (fun s => contains s (lower url)) e_commerce_sites = true.
Proof. intros Hs H. apply existsb_exists. eauto. Qed.

End Fragments.

(** C5, as amended.  When the download yields nothing and the host, as it
    stands in the URL, holds one of the configured fragments ([.flipkart.],
    [.amazon.], ...: the name of the domain between two dots, compared
    without case), the handler answers 429 with the bot-protection message
    and not the generic 400. *)
Theorem C5_bot_protected_host :
  forall (J : Type) (json_loads : string -> loaded J)
         (urlparse : string -> result ParseResult) (env : Env)
         (model : option Model) (data : dict) (url a b site : string)
         (p : ParseResult) (d : option string),
    dict_get data "url" EmptyString = url ->
    urlparse url = Ok p ->
    is_empty (scheme p) = false ->
    is_empty (netloc p) = false ->
    url = a ++ netloc p ++ b ->
    In site e_commerce_sites ->
    contains site (lower (netloc p)) = true ->
    env (fetch_url url) = Ok d ->
    falsy d = true ->
    run env (scrape_product J json_loads urlparse model data)
    = (Ok (error_response bot_protection_message 429),
       [ Logged LvDebug ("Attempting to scrape content from: " ++ url);
         Called (fetch_url url);
         Logged LvWarning ("Likely bot protection encountered on " ++ url) ]).
Proof.
  intros J json_loads urlparse env model data url a b site p d
         Hd Hp Hs Hn Hu Hsite Hc He Hf.
  assert (Hne : is_empty url = false).
  { rewrite Hu. destruct (netloc p); [discriminate|].
    now destruct a. }
  apply (run_bot_protected J json_loads urlparse env model data url p d);
    try assumption.
  apply (site_found site); [assumption|].
  rewrite Hu, !lower_app. now apply contains_inside.
Qed.

Lemma C5_bot_protected_host_witness :
  (dict_get [("url", "http://example-shop.flipkart.com/x")] "url" EmptyString
   = "http://example-shop.flipkart.com/x"
   /\ urlparse_ref "http://example-shop.flipkart.com/x"
      = Ok {| scheme := "http"; netloc := "example-shop.flipkart.com" |}
   /\ is_empty "http" = false
   /\ is_empty "example-shop.flipkart.com" = false
   /\ "http://example-shop.flipkart.com/x"
      = "http://" ++ "example-shop.flipkart.com" ++ "/x"
   /\ In ".flipkart." e_commerce_sites
   /\ contains ".flipkart." (lower "example-shop.flipkart.com") = true
   /\ env_answering example_document (fetch_url "http://example-shop.flipkart.com/x")
      = Ok None
   /\ falsy None = true)
  /\ fst (run (env_answering example_document)
              (scrape_product json json_loads_ref urlparse_ref
                              (Some gemini_flash)
                              [("url", "http://example-shop.flipkart.com/x")]))
     = Ok (error_response bot_protection_message 429).
Proof.
  split; [repeat split; try (vm_compute; reflexivity); cbn; tauto|].
  rewrite (C5_bot_protected_host json json_loads_ref urlparse_ref
             (env_answering example_document) (Some gemini_flash)
             [("url", "http://example-shop.flipkart.com/x")]
             "http://example-shop.flipkart.com/x" "http://" "/x" ".flipkart."
             {| scheme := "http"; netloc := "example-shop.flipkart.com" |}
             None);
    try (vm_compute; reflexivity).
  cbn; tauto.
Defined.

(** C5 fails as stated: the host [flipkart.com] is the flipkart domain, yet
    a failed download of this URL is answered with the generic 400. *)
Lemma C5_counterexample :
  urlparse_ref "http://flipkart.com/x"
  = Ok {| scheme := "http"; netloc := "flipkart.com" |}
  /\ host_matches_domain "flipkart.com" = true
  /\ env_answering example_document (fetch_url "http://flipkart.com/x") = Ok None
  /\ run (env_answering example_document)
         (scrape_product json json_loads_ref urlparse_ref (Some gemini_flash)
                         [("url", "http://flipkart.com/x")])
     = (Ok (error_response fetch_failed_message 400),
        [ Logged LvDebug "Attempting to scrape content from: http://flipkart.com/x";
          Called (fetch_url "http://flipkart.com/x");
          Logged LvError "Failed to download content from URL: http://flipkart.com/x" ]).
Proof. repeat split; vm_compute; reflexivity. Qed.

(** C9.  The check looks for each configured fragment in the whole
    lower-cased URL: when the download yields nothing and a fragment occurs
    anywhere in the URL, as typed or after lower-casing, path and query
    included, the handler answers 429 with the bot-protection message. *)
Theorem C9_fragment_anywhere_in_url :
  forall (J : Type) (json_loads : string -> loaded J)
         (urlparse : string -> result ParseResult) (env : Env)
         (model : option Model) (data : dict) (url site : string)
         (p : ParseResult) (d : option string),
    dict_get data "url" EmptyString = url ->
    is_empty url = false ->
    urlparse url = Ok p ->
    is_empty (scheme p) = false ->
    is_empty (netloc p) = false ->
    In site e_commerce_sites ->
    contains site url = true \/ contains site (lower url) = true ->
    env (fetch_url url) = Ok d ->
    falsy d = true ->
    existsb (fun s => contains s (lower url)) e_commerce_sites = true
    /\ run env (scrape_product J json_loads urlparse model data)
       = (Ok (error_response bot_protection_message 429),
          [ Logged LvDebug ("Attempting to scrape content from: " ++ url);
            Called (fetch_url url);
            Logged LvWarning ("Likely bot protection encountered on " ++ url) ]).
Proof.
  intros J json_loads urlparse env model data url site p d
         Hd Hu Hp Hs Hn Hsite Hc He Hf.
  assert (Hx : existsb (fun s => contains s (lower url)) e_commerce_sites = true).
  { apply (site_found site); [assumption|].
    destruct Hc as [Hc|Hc]; [now apply site_survives_lower|assumption]. }
  split; [exact Hx|].
  now apply (run_bot_protected J json_loads urlparse env model data url p d).
Qed.

Lemma C9_fragment_anywhere_in_url_witness :
  (dict_get [("url", "https://example.org/go?to=shop.AMAZON.test")] "url" EmptyString
   = "https://example.org/go?to=shop.AMAZON.test"
   /\ is_empty "https://example.org/go?to=shop.AMAZON.test" = false
   /\ urlparse_ref "https://example.org/go?to=shop.AMAZON.test"
      = Ok {| scheme := "https"; netloc := "example.org" |}
   /\ is_empty "https" = false
   /\ is_empty "example.org" = false
   /\ In ".amazon." e_commerce_sites
   /\ (contains ".amazon." "https://example.org/go?to=shop.AMAZON.test" = true
       \/ contains ".amazon." (lower "https://example.org/go?to=shop.AMAZON.test")
          = true)
   /\ env_answering example_document
        (fetch_url "https://example.org/go?to=shop.AMAZON.test") = Ok None
   /\ falsy None = true)
  /\ fst (run (env_answering example_document)
              (scrape_product json json_loads_ref urlparse_ref
                              (Some gemini_flash)
                              [("url", "https://example.org/go?to=shop.AMAZON.test")]))
     = Ok (error_response bot_protection_message 429).
Proof.
  split.
  - repeat split; try (vm_compute; reflexivity); [cbn; tauto|].
    right. vm_compute. reflexivity.
  - rewrite (proj2 (C9_fragment_anywhere_in_url json json_loads_ref urlparse_ref
               (env_answering example_document) (Some gemini_flash)
               [("url", "https://example.org/go?to=shop.AMAZON.test")]
               "https://example.org/go?to=shop.AMAZON.test" ".amazon."
               {| scheme := "https"; netloc := "example.org" |} None
               eq_refl eq_refl eq_refl eq_refl eq_refl
               (or_intror (or_introl eq_refl)) (or_intror eq_refl)
               eq_refl eq_refl)).
    reflexivity.
Defined.

(** ** Truncation of the extracted content *)

Section Truncation.

Lemma length_take (n : nat) (s : string) :
  n <= String.length s -> String.length (take n s) = n.
Proof.
  revert s; induction n as [|n IH]; intros s H; [reflexivity|].
  destruct s as [|c s]; cbn in *; [lia|].
  f_equal. apply IH. lia.
Qed.

Lemma take_all (n : nat) (s : string) :
  String.length s <= n -> take n s = s.
Proof.
  revert s; induction n as [|n IH]; intros s H.
  - destruct s; [reflexivity|cbn in H; lia].
  - destruct s as [|c s]; [reflexivity|]. cbn in *.
    f_equal. apply IH. lia.
Qed.

Lemma take_prefix (n : nat) (s : string) : prefix (take n s) s = true.
Proof.
  revert s; induction n as [|n IH]; intros s; [apply prefix_nil|].
  destruct s as [|c s]; [reflexivity|]. cbn [take].
  rewrite prefix_cons, Ascii.eqb_refl. apply IH.
Qed.

(** *** The prompt around the slice *)

(** The review prompt is the fixed text with the argument between two
    quotes. *)
Lemma review_prompt_shape (x : string) :
  review_prompt x
  = review_prompt_head ++ dq ++ x ++ dq ++ review_prompt_tail.
Proof.
  unfold review_prompt, review_prompt_head, review_prompt_tail.
  now rewrite !app_assoc_s.
Qed.

Lemma app_inv_head_s (a x y : string) : a ++ x = a ++ y -> x = y.
Proof. induction a as [|c a IH]; cbn; [easy|]. intros H. injection H. exact IH. Qed.

Lemma app_inv_tail_s (b x y : string) : x ++ b = y ++ b -> x = y.
Proof.
  intros H.
  assert (Hl : String.length x = String.length y).
  { apply (f_equal String.length) in H. rewrite !length_app in H. lia. }
  now destruct (app_inv_length _ _ _ _ H Hl).
Qed.

(** Distinct arguments give distinct prompts. *)
Lemma review_prompt_injective (x y : string) :
  review_prompt x = review_prompt y -> x = y.
Proof.
  rewrite !review_prompt_shape. intros H.
  apply app_inv_head_s, app_inv_head_s in H.
  replace (x ++ dq ++ review_prompt_tail)
    with (x ++ (dq ++ review_prompt_tail)) in H by reflexivity.
  now apply app_inv_tail_s in H.
Qed.

(** The argument stands in the prompt as it is, between the quotes. *)
Lemma review_prompt_contains (x : string) :
  contains (dq ++ x ++ dq) (review_prompt x) = true.
Proof.
  rewrite review_prompt_shape.
  replace (review_prompt_head ++ dq ++ x ++ dq ++ review_prompt_tail)
    with (review_prompt_head ++ (dq ++ x ++ dq) ++ review_prompt_tail)
    by now rewrite !app_assoc_s.
  apply contains_app.
Qed.

Lemma review_prompt_length (x : string) :
  String.length (review_prompt x) = 665 + String.length x.
Proof.
  rewrite review_prompt_shape, !length_app.
  change (String.length review_prompt_head) with 211.
  change (String.length review_prompt_tail) with 452.
  cbn [String.length dq]. lia.
Qed.

End Truncation.

(** C6.  Once a content of at least 100 characters has been extracted, the
    rest of the handler sees it only through its first 8000 characters:
    the slice has exactly 8000 characters when the content is longer and is
    the content itself otherwise; the synthesis prompt, which is the next
    thing sent out, is the fixed text of the template with the slice,
    unchanged, between its two quotes, so that it holds the slice, is
    never longer than the template plus 8000 characters, and differs for
    different slices; and two contents with the same slice give the same
    program from there on. *)
Theorem C6_content_truncated :
  forall (J : Type) (json_loads : string -> loaded J)
         (urlparse : string -> result ParseResult) (env : Env)
         (model : option Model) (data : dict) (url html content : string)
         (p : ParseResult),
    dict_get data "url" EmptyString = url ->
    is_empty url = false ->
    urlparse url = Ok p ->
    is_empty (scheme p) = false ->
    is_empty (netloc p) = false ->
    env (fetch_url url) = Ok (Some html) ->
    is_empty html = false ->
    env (extract html) = Ok (Some content) ->
    100 <= String.length content ->
    (8000 < String.length content ->
     String.length (take 8000 content) = 8000)
    /\ (String.length content <= 8000 -> take 8000 content = content)
    /\ prefix (take 8000 content) content = true
    /\ (let rest :=
          run env (try_except
                     (review_and_analyze J json_loads model content)
                     (unexpected "Error processing product URL: ")) in
        run env (scrape_product J json_loads urlparse model data)
        = (fst rest,
           [ Logged LvDebug ("Attempting to scrape content from: " ++ url);
             Called (fetch_url url);
             Called (extract html);
             Logged LvDebug
               ("Successfully extracted content from URL. Length: "
                ++ str_of_nat (String.length content)) ]
           ++ snd rest)%list)
    /\ (forall m, model = Some m ->
        exists t,
          snd (run env (try_except
                          (review_and_analyze J json_loads model content)
                          (unexpected "Error processing product URL: ")))
          = Called (generate_content m (review_prompt (take 8000 content))) :: t)
    /\ (forall content',
          take 8000 content' = take 8000 content ->
          review_and_analyze J json_loads model content'
          = review_and_analyze J json_loads model content)
    /\ review_prompt (take 8000 content)
       = review_prompt_head ++ dq ++ take 8000 content ++ dq
         ++ review_prompt_tail
    /\ contains (dq ++ take 8000 content ++ dq)
                (review_prompt (take 8000 content)) = true
    /\ String.length (review_prompt (take 8000 content))
       = 665 + Nat.min 8000 (String.length content)
    /\ (String.length content <= 8000 ->
        review_prompt (take 8000 content)
        = review_prompt_head ++ dq ++ content ++ dq ++ review_prompt_tail)
    /\ (forall content',
          review_prompt (take 8000 content')
          = review_prompt (take 8000 content) ->
          take 8000 content' = take 8000 content).
Proof.
  intros J json_loads urlparse env model data url html content p
         Hd Hu Hp Hs Hn Hf Hh Hx Hl.
  split; [|split; [|split; [|split; [|split; [|split; [|split; [|split;
    [|split; [|split]]]]]]]]].
  - intros H. apply length_take. now apply Nat.lt_le_incl.
  - apply take_all.
  - apply take_prefix.
  - cbv zeta. rewrite (scrape_valid J json_loads urlparse model data url p)
      by assumption.
    erewrite run_try_bind_ok
      by (apply (run_fetch_content J env url html content); assumption).
    reflexivity.
  - intros m ->. unfold review_and_analyze.
    cbn [generate call bind try_except run].
    destruct (run env _) as [r t]. now exists t.
  - intros content' H. unfold review_and_analyze. now rewrite H.
  - apply review_prompt_shape.
  - apply review_prompt_contains.
  - rewrite review_prompt_length. f_equal.
    destruct (Nat.le_gt_cases (String.length content) 8000) as [Hle|Hgt].
    + rewrite take_all by assumption. now rewrite Nat.min_r.
    + rewrite length_take by now apply Nat.lt_le_incl.
      rewrite Nat.min_l; [reflexivity|now apply Nat.lt_le_incl].
  - intros Hle. rewrite take_all by assumption. apply review_prompt_shape.
  - intros content'. apply review_prompt_injective.
Qed.

Lemma C6_content_truncated_witness :
  (dict_get [("url", "https://example.org/item")] "url" EmptyString
   = "https://example.org/item"
   /\ is_empty "https://example.org/item" = false
   /\ urlparse_ref "https://example.org/item"
      = Ok {| scheme := "https"; netloc := "example.org" |}
   /\ is_empty "https" = false
   /\ is_empty "example.org" = false
   /\ env_page (repeat_char "a" 8001) example_document
        (fetch_url "https://example.org/item") = Ok (Some "<html>page</html>")
   /\ is_empty "<html>page</html>" = false
   /\ env_page (repeat_char "a" 8001) example_document
        (extract "<html>page</html>") = Ok (Some (repeat_char "a" 8001))
   /\ 100 <= String.length (repeat_char "a" 8001))
  /\ (8000 < String.length (repeat_char "a" 8001) ->
      String.length (take 8000 (repeat_char "a" 8001)) = 8000).
Proof.
  split.
  - repeat split; try (vm_compute; reflexivity).
    apply Nat.leb_le. vm_compute. reflexivity.
  - apply (C6_content_truncated json json_loads_ref urlparse_ref
             (env_page (repeat_char "a" 8001) example_document)
             (Some gemini_flash) [("url", "https://example.org/item")]
             "https://example.org/item" "<html>page</html>"
             (repeat_char "a" 8001)
             {| scheme := "https"; netloc := "example.org" |});
      try (vm_compute; reflexivity).
    apply Nat.leb_le. vm_compute. reflexivity.
Defined.

(** ** Model selection *)

Section Selection.

Variable env : Env.

(** The loop commits to the first candidate that works and constructs
    none of the candidates after it. *)
Lemma try_candidates_commit (failed later : list string) (c : string)
      (model0 : option Model) (m : Model) (resp : Response) :
  Forall (candidate_fails env) failed ->
  env (GenerativeModel c) = Ok m ->
  env (generate_content m "Hello") = Ok resp ->
  exists t,
    run env (try_candidates (failed ++ c :: later) model0) = (Ok (Some m), t)
    /\ forall x, In (Called (GenerativeModel x)) t -> In x (failed ++ [c]).
Proof.
  intros Hf Hc Hg. revert model0.
  induction Hf as [|f fs Hfail _ IH]; intros model0.
  - cbn [app try_candidates run]. rewrite Hc. cbn [run]. rewrite Hg.
    cbn [run]. eexists. split; [reflexivity|].
    cbn. intros x [H|[H|[H|[H|[]]]]]; try discriminate.
    injection H as ->. now left.
  - cbn [app try_candidates run]. unfold candidate_fails in Hfail.
    destruct (env (GenerativeModel f)) as [m'|e] eqn:E.
    + destruct Hfail as [e He]. cbn [run]. rewrite He.
      destruct (IH (Some m')) as (t & Ht & Hin). cbn [run]. rewrite Ht.
      eexists. split; [reflexivity|].
      cbn. intros x [H|[H|[H|[H|H]]]]; try discriminate.
      * injection H as ->. now left.
      * right. now apply Hin.
    + destruct (IH model0) as (t & Ht & Hin). cbn [run]. rewrite Ht.
      eexists. split; [reflexivity|].
      cbn. intros x [H|[H|[H|H]]]; try discriminate.
      * injection H as ->. now left.
      * right. now apply Hin.
Qed.

(** When no constructor returns, the last-resort name is constructed and
    kept without a test prompt. *)
Lemma constructors_fail_last_resort (names : list string) (m : Model) :
  env list_models = Ok names ->
  (forall c, In c model_candidates -> exists e, env (GenerativeModel c) = Err e) ->
  env (GenerativeModel last_resort) = Ok m ->
  fst (run env init_model) = Ok (Some m)
  /\ llm_calls (snd (run env init_model)) = [].
Proof.
  intros Hl Hc Hm.
  destruct (Hc "models/gemini-1.5-flash") as [e1 H1]; [cbn; tauto|].
  destruct (Hc "models/chat-bison-001") as [e2 H2]; [cbn; tauto|].
  destruct (Hc "models/text-bison-001") as [e3 H3]; [cbn; tauto|].
  unfold init_model, model_candidates. cbn [run]. rewrite Hl.
  cbn [run bind try_candidates]. rewrite H1.
  cbn [run bind try_candidates]. rewrite H2.
  cbn [run bind try_candidates]. rewrite H3.
  cbn [run bind try_candidates]. rewrite Hm.
  split; reflexivity.
Qed.

(** When every constructor returns and every test prompt raises, the
    global keeps the model of the last candidate: the last-resort name is
    never constructed. *)
Lemma tests_fail_keeps_last_candidate (names : list string) :
  env list_models = Ok names ->
  (forall c, In c model_candidates ->
     exists m e, env (GenerativeModel c) = Ok m
                 /\ env (generate_content m "Hello") = Err e) ->
  exists m,
    env (GenerativeModel "models/text-bison-001") = Ok m
    /\ fst (run env init_model) = Ok (Some m)
    /\ ~ In (Called (GenerativeModel last_resort)) (snd (run env init_model)).
Proof.
  intros Hl Hc.
  destruct (Hc "models/gemini-1.5-flash") as (m1 & e1 & H1 & G1); [cbn; tauto|].
  destruct (Hc "models/chat-bison-001") as (m2 & e2 & H2 & G2); [cbn; tauto|].
  destruct (Hc "models/text-bison-001") as (m3 & e3 & H3 & G3); [cbn; tauto|].
  exists m3. split; [exact H3|].
  unfold init_model, model_candidates. cbn [run]. rewrite Hl.
  cbn [run bind try_candidates]. rewrite H1.
  cbn [run bind try_candidates]. rewrite G1.
  cbn [run bind try_candidates]. rewrite H2.
  cbn [run bind try_candidates]. rewrite G2.
  cbn [run bind try_candidates]. rewrite H3.
  cbn [run bind try_candidates]. rewrite G3.
  cbn [run bind try_candidates fst snd]. split; [reflexivity|].
  cbn [In]. intros H.
  repeat (destruct H as [H|H]; [discriminate|]). exact H.
Qed.

End Selection.

(** C8, at the input where it fails.  Every constructor returns and every
    test prompt raises, so every candidate has failed; the handle that
    startup leaves is the model of the last candidate, whose test failed,
    and the last-resort name is never constructed. *)
Theorem C8_tests_fail_no_last_resort :
  Forall (candidate_fails env_provider_down) model_candidates
  /\ fst (run env_provider_down init_model)
     = Ok (Some {| model_name := "models/text-bison-001" |})
  /\ fst (run env_provider_down init_model)
     <> Ok (Some {| model_name := last_resort |})
  /\ network_calls (snd (run env_provider_down init_model))
     = [ Called list_models;
         Called (GenerativeModel "models/gemini-1.5-flash");
         Called (generate_content {| model_name := "models/gemini-1.5-flash" |} "Hello");
         Called (GenerativeModel "models/chat-bison-001");
         Called (generate_content {| model_name := "models/chat-bison-001" |} "Hello");
         Called (GenerativeModel "models/text-bison-001");
         Called (generate_content {| model_name := "models/text-bison-001" |} "Hello") ].
Proof.
  split; [|split; [|split]].
  - repeat constructor; cbn; eexists; reflexivity.
  - vm_compute. reflexivity.
  - vm_compute. discriminate.
  - vm_compute. reflexivity.
Qed.



(** * Further properties of the code *)

(** ** The normaliser, second branch and invariants *)

Section NormaliserMore.

Lemma leading_lstrip (s : string) : leading_space (lstrip s) = false.
Proof.
  induction s as [|c s IH]; [reflexivity|].
  cbn [lstrip]. destruct (isspace c) eqn:E; [exact IH|].
  cbn [leading_space]. exact E.
Qed.

Lemma trailing_rstrip (s : string) : trailing_space (rstrip s) = false.
Proof.
  induction s as [|c s IH]; [reflexivity|].
  cbn [rstrip]. destruct (rstrip s) as [|d r] eqn:E.
  - destruct (isspace c) eqn:Ec; [reflexivity|]. cbn. exact Ec.
  - exact IH.
Qed.

Lemma no_nl_lstrip (s : string) :
  contains nl s = false -> contains nl (lstrip s) = false.
Proof.
  induction s as [|c s IH]; [easy|].
  intros H. cbn [lstrip]. destruct (isspace c); [|exact H].
  rewrite contains_nl_cons in H. apply orb_false_iff in H as [_ H].
  now apply IH.
Qed.

Lemma no_nl_rstrip (s : string) :
  contains nl s = false -> contains nl (rstrip s) = false.
Proof.
  induction s as [|c s IH]; [easy|].
  intros H. rewrite contains_nl_cons in H.
  apply orb_false_iff in H as [Hc H]. specialize (IH H).
  cbn [rstrip]. destruct (rstrip s) as [|d r].
  - destruct (isspace c); [reflexivity|].
    now rewrite contains_nl_cons, Hc.
  - now rewrite contains_nl_cons, Hc, IH.
Qed.

Lemma no_nl_replace (s : string) : contains nl (replace_nl s) = false.
Proof.
  induction s as [|c s IH]; [reflexivity|].
  cbn [replace_nl]. rewrite contains_nl_cons, IH, orb_false_r.
  destruct (Ascii.eqb c nl_char) eqn:E; [reflexivity|].
  now rewrite Ascii.eqb_sym.
Qed.

Lemma clean_is_compact (s : string) : compact (clean_json_str s) = true.
Proof.
  unfold compact, clean_json_str, strip.
  rewrite no_nl_rstrip by (apply no_nl_lstrip, no_nl_replace).
  rewrite trailing_rstrip, <- lstrip_rstrip, leading_lstrip.
  reflexivity.
Qed.

Lemma drop_app (a b : string) : drop (String.length a) (a ++ b) = b.
Proof. induction a; cbn; auto. Qed.

Lemma cut_app_here (sep rest : string) :
  cut sep (sep ++ rest) = Some (EmptyString, rest).
Proof.
  destruct (sep ++ rest) eqn:E; cbn [cut]; rewrite <- E, prefix_app, drop_app;
    reflexivity.
Qed.

End NormaliserMore.

(** X1.  Second branch: when the response holds no JSON-tagged fence but
    holds a fence and a later one, the normaliser keeps the text between
    the first two fences, cleaned, and hands only that to the reader. *)
Theorem X1_generic_fence_pair :
  forall (J : Type) (json_loads : string -> loaded J) (env : Env)
         (response_text pre rest mid post : string),
    contains fence_json response_text = false ->
    cut fence response_text = Some (pre, rest) ->
    cut fence rest = Some (mid, post) ->
    response_text = pre ++ fence ++ mid ++ fence ++ post
    /\ extract_json_str response_text = strip mid
    /\ normalize response_text = clean_json_str mid
    /\ (forall v, json_loads (clean_json_str mid) = Loaded v ->
        run env (parse_and_respond J json_loads response_text)
        = (Ok {| body := Analysis v; status := 200 |}, [])).
Proof.
  intros J json_loads env response_text pre rest mid post Hj Ho Hc.
  assert (Hx : extract_json_str response_text = strip mid).
  { rewrite (extract_generic _ _ _ Hj Ho). unfold before. now rewrite Hc. }
  assert (Hn : normalize response_text = clean_json_str mid)
    by (unfold normalize; rewrite Hx; apply clean_strip).
  repeat split; [|exact Hx|exact Hn|].
  - apply cut_sound in Ho, Hc. now subst.
  - intros v Hv. apply run_parse_ok. now rewrite Hn.
Qed.

Lemma X1_generic_fence_pair_witness :
  (contains fence_json ("Sure: ```" ++ nl ++ example_document ++ nl ++ "``` Bye")
   = false
   /\ cut fence ("Sure: ```" ++ nl ++ example_document ++ nl ++ "``` Bye")
      = Some ("Sure: ", nl ++ example_document ++ nl ++ "``` Bye")
   /\ cut fence (nl ++ example_document ++ nl ++ "``` Bye")
      = Some (nl ++ example_document ++ nl, " Bye"))
  /\ normalize ("Sure: ```" ++ nl ++ example_document ++ nl ++ "``` Bye")
     = clean_json_str (nl ++ example_document ++ nl).
Proof.
  split; [repeat split; vm_compute; reflexivity|].
  apply (X1_generic_fence_pair json json_loads_ref (env_answering EmptyString)
           ("Sure: ```" ++ nl ++ example_document ++ nl ++ "``` Bye")
           "Sure: " (nl ++ example_document ++ nl ++ "``` Bye")
           (nl ++ example_document ++ nl) " Bye");
    vm_compute; reflexivity.
Defined.

(** X2.  First match wins: when the response holds a JSON-tagged fence,
    nothing before the first such fence has any influence, be it prose or
    plain fences; the response is normalised as if it began at the tag. *)
Theorem X2_text_before_tag_ignored :
  forall (response_text pre rest : string),
    cut fence_json response_text = Some (pre, rest) ->
    normalize response_text = normalize (fence_json ++ rest).
Proof.
  intros response_text pre rest H. unfold normalize.
  rewrite (extract_tagged _ _ _ H).
  assert (H' : cut fence_json (fence_json ++ rest) = Some (EmptyString, rest))
    by apply cut_app_here.
  now rewrite (extract_tagged _ _ _ H').
Qed.

Lemma X2_text_before_tag_ignored_witness :
  cut fence_json ("```x``` then ```json" ++ example_document ++ "```")
  = Some ("```x``` then ", example_document ++ "```")
  /\ normalize ("```x``` then ```json" ++ example_document ++ "```")
     = example_document.
Proof.
  split; [vm_compute; reflexivity|].
  rewrite (X2_text_before_tag_ignored
             ("```x``` then ```json" ++ example_document ++ "```")
             "```x``` then " (example_document ++ "```"));
    vm_compute; reflexivity.
Defined.

(** X3.  Whatever the response, the string handed to the JSON reader holds
    no line feed and neither begins nor ends with white space. *)
Theorem X3_normalized_is_compact :
  forall response_text : string, compact (normalize response_text) = true.
Proof. intros response_text. apply clean_is_compact. Qed.

(** X4.  Normalising twice is normalising once, as long as the first
    result holds no fence. *)
Theorem X4_normalize_idempotent :
  forall response_text : string,
    contains fence (normalize response_text) = false ->
    normalize (normalize response_text) = normalize response_text.
Proof.
  intros response_text H. unfold normalize at 1.
  rewrite (extract_plain _ H). apply clean_compact, clean_is_compact.
Qed.

Lemma X4_normalize_idempotent_witness :
  contains fence (normalize fenced_example) = false
  /\ normalize (normalize fenced_example) = normalize fenced_example.
Proof.
  split; [vm_compute; reflexivity|].
  apply (X4_normalize_idempotent fenced_example). vm_compute. reflexivity.
Defined.

(** ** [/analyze], every path *)

(** X5.  With a review and a model, the answer is decided by the JSON
    reader on the normalised text of the provider, whatever the text: the
    value read is returned with 200; a decode error gives 500 with the raw
    text; any other exception of the reader gives the generic 500 without
    the raw text.  The provider is called once, with the analysis prompt
    built from the review. *)
Theorem X5_analyze_answer_follows_reader :
  forall (J : Type) (json_loads : string -> loaded J) (env : Env)
         (m : Model) (data : dict) (review response_text : string),
    dict_get data "review" EmptyString = review ->
    is_empty review = false ->
    env (generate_content m (analyze_prompt review))
    = Ok {| text := Ok response_text |} ->
    (forall v, json_loads (normalize response_text) = Loaded v ->
       run env (analyze_review J json_loads (Some m) data)
       = (Ok {| body := Analysis v; status := 200 |},
          [Called (generate_content m (analyze_prompt review))]))
    /\ (forall e, json_loads (normalize response_text) = DecodeError e ->
       run env (analyze_review J json_loads (Some m) data)
       = (Ok {| body := Fields [("error", parse_failed_message);
                                ("raw_response", response_text)];
                status := 500 |},
          [ Called (generate_content m (analyze_prompt review));
            Logged LvError ("Error decoding JSON: " ++ e);
            Logged LvDebug ("Response text: " ++ response_text);
            Logged LvDebug ("Extracted JSON string: "
                            ++ normalize response_text) ]))
    /\ (forall e, json_loads (normalize response_text) = OtherError e ->
       run env (analyze_review J json_loads (Some m) data)
       = (Ok (error_response ("An error occurred: " ++ e) 500),
          [ Called (generate_content m (analyze_prompt review));
            Logged LvError ("Error analyzing review: " ++ e) ])).
Proof.
  intros J json_loads env m data review response_text Hd Hr He.
  repeat split; intros x Hx;
    rewrite (run_analyze J json_loads env m data review response_text Hd Hr He),
            run_try_parse, Hx.
  - now rewrite (run_parse_ok J json_loads env response_text x Hx).
  - now rewrite (run_parse_err J json_loads env response_text x Hx).
  - reflexivity.
Qed.

Lemma X5_analyze_answer_follows_reader_witness :
  (dict_get [("review", "Great phone")] "review" EmptyString = "Great phone"
   /\ is_empty "Great phone" = false
   /\ env_answering fenced_example
        (generate_content gemini_flash (analyze_prompt "Great phone"))
      = Ok {| text := Ok fenced_example |})
  /\ run (env_answering fenced_example)
         (analyze_review json json_loads_ref (Some gemini_flash)
                         [("review", "Great phone")])
     = (Ok {| body := Analysis example_object; status := 200 |},
        [Called (generate_content gemini_flash (analyze_prompt "Great phone"))]).
Proof.
  split; [repeat split; vm_compute; reflexivity|].
  apply (proj1 (X5_analyze_answer_follows_reader json json_loads_ref
                  (env_answering fenced_example) gemini_flash
                  [("review", "Great phone")] "Great phone" fenced_example
                  eq_refl eq_refl eq_refl)).
  vm_compute. reflexivity.
Defined.

(** X6.  When the provider raises, or its response has no readable text,
    the handler answers 500 with the text of the exception, logs it, and
    does not call the provider again. *)
Theorem X6_analyze_provider_error :
  forall (J : Type) (json_loads : string -> loaded J) (env : Env)
         (m : Model) (data : dict) (review e : string),
    dict_get data "review" EmptyString = review ->
    is_empty review = false ->
    env (generate_content m (analyze_prompt review)) = Err e
    \/ env (generate_content m (analyze_prompt review)) = Ok {| text := Err e |} ->
    run env (analyze_review J json_loads (Some m) data)
    = (Ok (error_response ("An error occurred: " ++ e) 500),
       [ Called (generate_content m (analyze_prompt review));
         Logged LvError ("Error analyzing review: " ++ e) ]).
Proof.
  intros J json_loads env m data review e Hd Hr He.
  unfold analyze_review. rewrite Hd, Hr.
  cbn [generate call bind try_except run].
  destruct He as [He|He]; rewrite He; reflexivity.
Qed.

(** The reader raising something that is not a decode error: the text
    opens 2000 brackets and the reader stops at a nesting of 1000. *)
Example analyze_recursion_error :
  json_loads_limited 1000 (normalize (repeat_char "[" 2000))
  = OtherError "maximum recursion depth exceeded while decoding a JSON array from a unicode string"
  /\ run (env_answering (repeat_char "[" 2000))
         (analyze_review json (json_loads_limited 1000) (Some gemini_flash)
                         [("review", "Great phone")])
     = (Ok (error_response
              "An error occurred: maximum recursion depth exceeded while decoding a JSON array from a unicode string"
              500),
        [ Called (generate_content gemini_flash (analyze_prompt "Great phone"));
          Logged LvError
            "Error analyzing review: maximum recursion depth exceeded while decoding a JSON array from a unicode string" ]).
Proof. split; vm_compute; reflexivity. Qed.

Lemma X6_analyze_provider_error_witness :
  (dict_get [("review", "Great phone")] "review" EmptyString = "Great phone"
   /\ is_empty "Great phone" = false
   /\ (env_provider_down (generate_content gemini_flash (analyze_prompt "Great phone"))
       = Err "400 API key not valid"
       \/ env_provider_down (generate_content gemini_flash (analyze_prompt "Great phone"))
          = Ok {| text := Err "400 API key not valid" |}))
  /\ fst (run env_provider_down
              (analyze_review json json_loads_ref (Some gemini_flash)
                              [("review", "Great phone")]))
     = Ok (error_response "An error occurred: 400 API key not valid" 500).
Proof.
  split; [repeat split; try (vm_compute; reflexivity); left; reflexivity|].
  rewrite (X6_analyze_provider_error json json_loads_ref env_provider_down
             gemini_flash [("review", "Great phone")] "Great phone"
             "400 API key not valid" eq_refl eq_refl (or_introl eq_refl)).
  reflexivity.
Defined.

(** X7.  [/analyze] always answers, with 200, 400 or 500; it calls the
    provider at most once and nothing else outside; 400 is the answer
    exactly when the review is empty, and then nothing is called or logged;
    and a 200 answer always carries a value that the reader returned for
    the normalised text of the provider. *)
Theorem X7_analyze_outcomes :
  forall (J : Type) (json_loads : string -> loaded J) (env : Env)
         (model : option Model) (data : dict),
  exists resp t,
    run env (analyze_review J json_loads model data) = (Ok resp, t)
    /\ In (status resp) [200; 400; 500]
    /\ count_events is_llm_call t <= 1
    /\ network_calls t = llm_calls t
    /\ (status resp = 400
        <-> is_empty (dict_get data "review" EmptyString) = true)
    /\ (status resp = 400 -> t = [])
    /\ (status resp = 200 ->
        exists m response_text v,
          model = Some m
          /\ env (generate_content m
                    (analyze_prompt (dict_get data "review" EmptyString)))
             = Ok {| text := Ok response_text |}
          /\ json_loads (normalize response_text) = Loaded v
          /\ body resp = Analysis v).
Proof.
  intros J json_loads env model data. unfold analyze_review.
  destruct (is_empty (dict_get data "review" EmptyString)) eqn:Hr.
  - do 2 eexists. split; [reflexivity|]. cbn.
    repeat split; auto; try discriminate; lia.
  - destruct model as [m|]; cbn [generate call bind try_except run unexpected].
    + destruct (env (generate_content m _)) as [[[txt|e]]|e] eqn:He;
        cbn [text of_result bind try_except run unexpected].
      * unfold parse_and_respond.
        fold (normalize txt).
        destruct (json_loads (normalize txt)) as [v|e|e] eqn:Hj;
          cbn [try_except run unexpected];
          do 2 eexists; (split; [reflexivity|]); cbn;
          repeat split; auto; try discriminate; try lia.
        intros _. exists m, txt, v. auto.
      * do 2 eexists. split; [reflexivity|]. cbn.
        repeat split; auto; try discriminate; lia.
      * do 2 eexists. split; [reflexivity|]. cbn.
        repeat split; auto; try discriminate; lia.
    + do 2 eexists. split; [reflexivity|]. cbn.
      repeat split; auto; try discriminate; lia.
Qed.

(** ** [/scrape], every path *)

Section ScrapeTable.

Variable J : Type.
Variable json_loads : string -> loaded J.
Variable urlparse : string -> result ParseResult.
Variable env : Env.

Lemma enough_content (c : string) :
  is_empty c || (String.length c <? 100) = false -> 100 <= String.length c.
Proof.
  intros H. apply orb_false_iff in H as [_ H]. now apply Nat.ltb_ge.
Qed.

Ltac leaf :=
  do 2 eexists; (split; [reflexivity|]);
  cbn -[review_prompt scrape_analysis_prompt take append];
  repeat split; auto; try discriminate; try lia; try congruence.

(** Every run of [/scrape], with what each kind of answer presupposes. *)
Lemma scrape_table (model : option Model) (data : dict) :
  exists resp t,
    run env (scrape_product J json_loads urlparse model data) = (Ok resp, t)
    /\ In (status resp) [200; 400; 429; 500]
    /\ count_events is_llm_call t <= 2
    /\ count_events is_fetch t <= 1
    /\ (status resp = 429 ->
        exists d,
          env (fetch_url (dict_get data "url" EmptyString)) = Ok d
          /\ falsy d = true
          /\ existsb (fun site =>
                        contains site (lower (dict_get data "url" EmptyString)))
                     e_commerce_sites = true
          /\ llm_calls t = [])
    /\ (llm_calls t <> [] ->
        exists m html content,
          model = Some m
          /\ env (fetch_url (dict_get data "url" EmptyString)) = Ok (Some html)
          /\ is_empty html = false
          /\ env (extract html) = Ok (Some content)
          /\ 100 <= String.length content
          /\ hd_error (llm_calls t)
             = Some (Called (generate_content m
                               (review_prompt (take 8000 content)))))
    /\ (status resp = 200 ->
        (exists v, body resp = Analysis v)
        /\ count_events is_llm_call t = 2).
Proof.
  unfold scrape_product.
  set (url := dict_get data "url" EmptyString).
  destruct (is_empty url) eqn:Hu; [leaf|].
  destruct (urlparse url) as [p|e] eqn:Hp; [|leaf].
  destruct (is_empty (scheme p) || is_empty (netloc p)) eqn:Hv; [leaf|].
  unfold fetch_content. cbn [bind try_except call run].
  destruct (env (fetch_url url)) as [[html|]|e] eqn:Hf;
    cbn [bind try_except run].
  - destruct (is_empty html) eqn:Hh.
    + unfold download_failed.
      destruct (existsb _ e_commerce_sites) eqn:Hx;
        cbn [bind try_except run]; leaf.
      intros _. exists (Some html). cbn [falsy]. auto.
    + unfold extract_content. cbn [bind try_except call run].
      destruct (env (extract html)) as [[c|]|e] eqn:Hc;
        cbn [bind try_except run]; [|leaf|leaf].
      destruct (is_empty c || (String.length c <? 100)) eqn:Hl;
        cbn [bind try_except run]; [leaf|].
      apply enough_content in Hl.
      unfold review_and_analyze.
      destruct model as [m|];
        cbn [generate call bind try_except run unexpected]; [|leaf].
      assert (Hfrom : forall P : Prop,
                 P ->
                 exists m' html' content,
                   Some m = Some m'
                   /\ @Ok (option string) (Some html) = Ok (Some html')
                   /\ is_empty html' = false
                   /\ env (extract html') = Ok (Some content)
                   /\ 100 <= String.length content
                   /\ Some (Called (generate_content m
                                      (review_prompt (take 8000 c))))
                      = Some (Called (generate_content m'
                                        (review_prompt (take 8000 content))))).
      { intros P _. exists m, html, c. repeat split; auto. }
      destruct (env (generate_content m (review_prompt (take 8000 c))))
        as [[[review_text|e]]|e] eqn:H1;
        cbn [text of_result bind try_except run unexpected];
        [|leaf; apply Hfrom|leaf; apply Hfrom].
      destruct (env (generate_content m (scrape_analysis_prompt review_text)))
        as [[[response_text|e]]|e] eqn:H2;
        cbn [text of_result bind try_except run unexpected];
        [|leaf; apply Hfrom|leaf; apply Hfrom].
      unfold parse_and_respond.
      destruct (json_loads _) as [v|e|e]; cbn [try_except run unexpected]; leaf;
        first [apply Hfrom | eauto].
  - unfold download_failed.
    destruct (existsb _ e_commerce_sites) eqn:Hx;
      cbn [bind try_except run]; leaf.
    intros _. exists None. auto.
  - leaf.
Qed.

End ScrapeTable.

Section ScrapePaths.

Variable J : Type.
Variable json_loads : string -> loaded J.
Variable urlparse : string -> result ParseResult.
Variable env : Env.

Lemma run_scrape_from_fetch (model : option Model) (data : dict) (url : string)
      (fetched : HttpResponse J + string) (t : list Event) :
  valid_url urlparse data url ->
  run env (fetch_content J url) = (Ok fetched, t) ->
  run env (scrape_product J json_loads urlparse model data)
  = match fetched with
    | inl early => (Ok early, t)
    | inr content =>
        (fst (run env (try_except
                         (review_and_analyze J json_loads model content)
                         (unexpected "Error processing product URL: "))),
         (t ++ snd (run env (try_except
                               (review_and_analyze J json_loads model content)
                               (unexpected "Error processing product URL: "))))%list)
    end.
Proof.
  intros (Hd & Hu & p & Hp & Hs & Hn) Hf.
  rewrite (scrape_valid J json_loads urlparse model data url p) by assumption.
  rewrite (run_try_bind_ok env _ _ _ _ _ Hf).
  destruct fetched as [early|content]; [|reflexivity].
  cbn [try_except run fst snd]. now rewrite app_nil_r.
Qed.

Lemma run_scrape_content (model : option Model) (data : dict)
      (url html content : string) :
  valid_url urlparse data url ->
  page_extracted env url html content ->
  run env (scrape_product J json_loads urlparse model data)
  = (fst (run env (try_except
                     (review_and_analyze J json_loads model content)
                     (unexpected "Error processing product URL: "))),
     (extraction_events url html content
      ++ snd (run env (try_except
                         (review_and_analyze J json_loads model content)
                         (unexpected "Error processing product URL: "))))%list).
Proof.
  intros Hv (Hf & Hh & Hx & Hl).
  now rewrite (run_scrape_from_fetch model data url (inr content)
                 (extraction_events url html content) Hv
                 (run_fetch_content J env url html content Hf Hh Hx Hl)).
Qed.

Lemma run_fetch_raises (url e : string) :
  env (fetch_url url) = Err e ->
  run env (fetch_content J url)
  = (Ok (inl (error_response
                ("Error scraping website: " ++ e
                 ++ ". Try using a different URL.") 500)),
     [ Logged LvDebug ("Attempting to scrape content from: " ++ url);
       Called (fetch_url url);
       Logged LvError ("Error scraping website: " ++ e) ]).
Proof.
  intros H. unfold fetch_content. cbn [try_except bind call run].
  now rewrite H.
Qed.

Lemma run_extract_raises (url html e : string) :
  env (fetch_url url) = Ok (Some html) ->
  is_empty html = false ->
  env (extract html) = Err e ->
  run env (fetch_content J url)
  = (Ok (inl (error_response
                ("Error scraping website: " ++ e
                 ++ ". Try using a different URL.") 500)),
     [ Logged LvDebug ("Attempting to scrape content from: " ++ url);
       Called (fetch_url url);
       Called (extract html);
       Logged LvError ("Error scraping website: " ++ e) ]).
Proof.
  intros Hf Hh Hx. unfold fetch_content. cbn [try_except bind call run].
  rewrite Hf. cbn [bind try_except]. rewrite Hh. unfold extract_content.
  cbn [try_except bind call run]. now rewrite Hx.
Qed.

Lemma run_extract_insufficient (url html : string) (c : option string) :
  env (fetch_url url) = Ok (Some html) ->
  is_empty html = false ->
  env (extract html) = Ok c ->
  match c with
  | None => True
  | Some content => String.length content < 100
  end ->
  run env (fetch_content J url)
  = (Ok (inl (error_response insufficient_content_message 400)),
     [ Logged LvDebug ("Attempting to scrape content from: " ++ url);
       Called (fetch_url url);
       Called (extract html);
       Logged LvError ("Failed to extract meaningful content from URL: " ++ url) ]).
Proof.
  intros Hf Hh Hx Hc. unfold fetch_content. cbn [try_except bind call run].
  rewrite Hf. cbn [bind try_except]. rewrite Hh. unfold extract_content.
  cbn [try_except bind call run]. rewrite Hx. cbn [bind try_except].
  destruct c as [content|]; [|reflexivity].
  assert (Hb : is_empty content || (String.length content <? 100) = true).
  { apply orb_true_iff. right. now apply Nat.ltb_lt. }
  now rewrite Hb.
Qed.

End ScrapePaths.

Ltac example_valid_url :=
  repeat split; try reflexivity;
  eexists; repeat split; vm_compute; reflexivity.

Ltac example_page :=
  repeat split; try (vm_compute; reflexivity);
  apply Nat.leb_le; vm_compute; reflexivity.

(** X8.  A request without URL, or whose URL makes [urlparse] raise, is
    answered 400 before anything is downloaded, called or logged; the
    first case does not even depend on [urlparse]. *)
Theorem X8_scrape_rejected_before_fetch :
  forall (J : Type) (json_loads : string -> loaded J)
         (urlparse : string -> result ParseResult) (env : Env)
         (model : option Model) (data : dict),
    is_empty (dict_get data "url" EmptyString) = true
    \/ (exists e, urlparse (dict_get data "url" EmptyString) = Err e) ->
    exists msg,
      run env (scrape_product J json_loads urlparse model data)
      = (Ok (error_response msg 400), [])
      /\ (is_empty (dict_get data "url" EmptyString) = true ->
          msg = "No URL provided")
      /\ (is_empty (dict_get data "url" EmptyString) = false ->
          msg = "Invalid URL").
Proof.
  intros J json_loads urlparse env model data H. unfold scrape_product.
  destruct (is_empty (dict_get data "url" EmptyString)) eqn:Hu.
  - exists "No URL provided". repeat split; easy.
  - destruct H as [H|[e H]]; [discriminate|]. rewrite H.
    exists "Invalid URL". repeat split; easy.
Qed.

Lemma X8_scrape_rejected_before_fetch_witness :
  (is_empty (dict_get [("review", "Great phone")] "url" EmptyString) = true
   \/ (exists e, urlparse_ref
                   (dict_get [("review", "Great phone")] "url" EmptyString)
                 = Err e))
  /\ exists msg,
      run (env_page (repeat_char "a" 120) fenced_example)
          (scrape_product json json_loads_ref urlparse_ref (Some gemini_flash)
                          [("review", "Great phone")])
      = (Ok (error_response msg 400), [])
      /\ (is_empty (dict_get [("review", "Great phone")] "url" EmptyString) = true ->
          msg = "No URL provided")
      /\ (is_empty (dict_get [("review", "Great phone")] "url" EmptyString) = false ->
          msg = "Invalid URL").
Proof.
  split; [left; reflexivity|].
  apply (X8_scrape_rejected_before_fetch json json_loads_ref urlparse_ref
           (env_page (repeat_char "a" 120) fenced_example) (Some gemini_flash)
           [("review", "Great phone")]).
  left. reflexivity.
Defined.

(** X9.  When nothing can be downloaded from a valid URL in which no
    configured fragment occurs, the answer is the generic 400, and the
    provider is not called. *)
Theorem X9_scrape_fetch_failed :
  forall (J : Type) (json_loads : string -> loaded J)
         (urlparse : string -> result ParseResult) (env : Env)
         (model : option Model) (data : dict) (url : string)
         (d : option string),
    valid_url urlparse data url ->
    env (fetch_url url) = Ok d ->
    falsy d = true ->
    existsb (fun site => contains site (lower url)) e_commerce_sites = false ->
    run env (scrape_product J json_loads urlparse model data)
    = (Ok (error_response fetch_failed_message 400),
       [ Logged LvDebug ("Attempting to scrape content from: " ++ url);
         Called (fetch_url url);
         Logged LvError ("Failed to download content from URL: " ++ url) ]).
Proof.
  intros J json_loads urlparse env model data url d
         (Hd & Hu & p & Hp & Hs & Hn) He Hf Hx.
  now apply (run_fetch_failed J json_loads urlparse env model data url p d).
Qed.

Lemma X9_scrape_fetch_failed_witness :
  (valid_url urlparse_ref example_data example_url
   /\ env_answering fenced_example (fetch_url example_url) = Ok None
   /\ falsy None = true
   /\ existsb (fun site => contains site (lower example_url)) e_commerce_sites
      = false)
  /\ fst (run (env_answering fenced_example)
              (scrape_product json json_loads_ref urlparse_ref
                              (Some gemini_flash) example_data))
     = Ok (error_response fetch_failed_message 400).
Proof.
  split; [split; [example_valid_url|repeat split; vm_compute; reflexivity]|].
  rewrite (X9_scrape_fetch_failed json json_loads_ref urlparse_ref
             (env_answering fenced_example) (Some gemini_flash)
             example_data example_url None);
    first [reflexivity | example_valid_url | vm_compute; reflexivity].
Defined.

(** X10.  When the extraction yields nothing, or fewer than 100
    characters, the answer is 400 with the message about unreadable
    content, and the provider is not called. *)
Theorem X10_scrape_insufficient_content :
  forall (J : Type) (json_loads : string -> loaded J)
         (urlparse : string -> result ParseResult) (env : Env)
         (model : option Model) (data : dict) (url html : string)
         (c : option string),
    valid_url urlparse data url ->
    env (fetch_url url) = Ok (Some html) ->
    is_empty html = false ->
    env (extract html) = Ok c ->
    match c with
    | None => True
    | Some content => String.length content < 100
    end ->
    run env (scrape_product J json_loads urlparse model data)
    = (Ok (error_response insufficient_content_message 400),
       [ Logged LvDebug ("Attempting to scrape content from: " ++ url);
         Called (fetch_url url);
         Called (extract html);
         Logged LvError ("Failed to extract meaningful content from URL: "
                         ++ url) ]).
Proof.
  intros J json_loads urlparse env model data url html c Hv Hf Hh Hx Hc.
  now rewrite (run_scrape_from_fetch J json_loads urlparse env model data url
                 _ _ Hv (run_extract_insufficient J env url html c Hf Hh Hx Hc)).
Qed.

Lemma X10_scrape_insufficient_content_witness :
  (valid_url urlparse_ref example_data example_url
   /\ env_page (repeat_char "a" 99) fenced_example (fetch_url example_url)
      = Ok (Some example_html)
   /\ is_empty example_html = false
   /\ env_page (repeat_char "a" 99) fenced_example (extract example_html)
      = Ok (Some (repeat_char "a" 99))
   /\ String.length (repeat_char "a" 99) < 100)
  /\ fst (run (env_page (repeat_char "a" 99) fenced_example)
              (scrape_product json json_loads_ref urlparse_ref
                              (Some gemini_flash) example_data))
     = Ok (error_response insufficient_content_message 400).
Proof.
  split.
  - split; [example_valid_url|].
    repeat split; vm_compute; reflexivity.
  - rewrite (X10_scrape_insufficient_content json json_loads_ref urlparse_ref
               (env_page (repeat_char "a" 99) fenced_example)
               (Some gemini_flash) example_data example_url example_html
               (Some (repeat_char "a" 99)));
      first [reflexivity | example_valid_url | vm_compute; reflexivity].
Defined.

(** X11.  When the download or the extraction raises, the answer is 500
    with the text of the exception in the scraping message; the exception
    is logged and the provider is not called. *)
Theorem X11_scrape_fetch_exception :
  forall (J : Type) (json_loads : string -> loaded J)
         (urlparse : string -> result ParseResult) (env : Env)
         (model : option Model) (data : dict) (url e : string),
    valid_url urlparse data url ->
    env (fetch_url url) = Err e
    \/ (exists html, env (fetch_url url) = Ok (Some html)
                     /\ is_empty html = false
                     /\ env (extract html) = Err e) ->
    fst (run env (scrape_product J json_loads urlparse model data))
    = Ok (error_response ("Error scraping website: " ++ e
                          ++ ". Try using a different URL.") 500)
    /\ llm_calls (snd (run env (scrape_product J json_loads urlparse model data)))
       = []
    /\ In (Logged LvError ("Error scraping website: " ++ e))
          (snd (run env (scrape_product J json_loads urlparse model data))).
Proof.
  intros J json_loads urlparse env model data url e Hv [H|(html & Hf & Hh & Hx)].
  - rewrite (run_scrape_from_fetch J json_loads urlparse env model data url
               _ _ Hv (run_fetch_raises J env url e H)).
    cbn [fst snd llm_calls filter is_llm_call In].
    repeat split. right; right; left; reflexivity.
  - rewrite (run_scrape_from_fetch J json_loads urlparse env model data url
               _ _ Hv (run_extract_raises J env url html e Hf Hh Hx)).
    cbn [fst snd llm_calls filter is_llm_call In].
    repeat split. right; right; right; left; reflexivity.
Qed.

Lemma X11_scrape_fetch_exception_witness :
  (valid_url urlparse_ref example_data example_url
   /\ (env_of (Ok []) (fun name => Ok {| model_name := name |})
              (fun _ _ => Ok {| text := Ok fenced_example |})
              (fun _ => Err "Connection refused")
              (fun _ => Ok None) (fetch_url example_url)
       = Err "Connection refused"
       \/ exists html,
            env_of (Ok []) (fun name => Ok {| model_name := name |})
                   (fun _ _ => Ok {| text := Ok fenced_example |})
                   (fun _ => Err "Connection refused")
                   (fun _ => Ok None) (fetch_url example_url)
            = Ok (Some html)
            /\ is_empty html = false
            /\ env_of (Ok []) (fun name => Ok {| model_name := name |})
                      (fun _ _ => Ok {| text := Ok fenced_example |})
                      (fun _ => Err "Connection refused")
                      (fun _ => Ok None) (extract html)
               = Err "Connection refused"))
  /\ fst (run (env_of (Ok []) (fun name => Ok {| model_name := name |})
                      (fun _ _ => Ok {| text := Ok fenced_example |})
                      (fun _ => Err "Connection refused")
                      (fun _ => Ok None))
              (scrape_product json json_loads_ref urlparse_ref
                              (Some gemini_flash) example_data))
     = Ok (error_response
             "Error scraping website: Connection refused. Try using a different URL."
             500).
Proof.
  split; [split; [example_valid_url|left; reflexivity]|].
  apply (X11_scrape_fetch_exception json json_loads_ref urlparse_ref
           (env_of (Ok []) (fun name => Ok {| model_name := name |})
                   (fun _ _ => Ok {| text := Ok fenced_example |})
                   (fun _ => Err "Connection refused")
                   (fun _ => Ok None))
           (Some gemini_flash) example_data example_url "Connection refused");
    [example_valid_url|left; reflexivity].
Defined.

(** X12.  The two-stage pipeline: once the content is extracted, the
    provider is asked for a review of the first 8000 characters, then for
    the analysis of exactly the review it returned; the answer is decided
    by the JSON reader on the normalised second response: 200 with the
    value read, 500 with the raw response on a decode error, the generic
    500 on any other exception of the reader. *)
Theorem X12_scrape_two_stage_pipeline :
  forall (J : Type) (json_loads : string -> loaded J)
         (urlparse : string -> result ParseResult) (env : Env)
         (m : Model) (data : dict)
         (url html content review_text response_text : string),
    valid_url urlparse data url ->
    page_extracted env url html content ->
    env (generate_content m (review_prompt (take 8000 content)))
    = Ok {| text := Ok review_text |} ->
    env (generate_content m (scrape_analysis_prompt review_text))
    = Ok {| text := Ok response_text |} ->
    (forall v, json_loads (normalize response_text) = Loaded v ->
       run env (scrape_product J json_loads urlparse (Some m) data)
       = (Ok {| body := Analysis v; status := 200 |},
          extraction_events url html content
          ++ [ Called (generate_content m (review_prompt (take 8000 content)));
               Called (generate_content m (scrape_analysis_prompt review_text)) ])%list)
    /\ (forall e, json_loads (normalize response_text) = DecodeError e ->
       run env (scrape_product J json_loads urlparse (Some m) data)
       = (Ok {| body := Fields [("error", parse_failed_message);
                                ("raw_response", response_text)];
                status := 500 |},
          extraction_events url html content
          ++ [ Called (generate_content m (review_prompt (take 8000 content)));
               Called (generate_content m (scrape_analysis_prompt review_text));
               Logged LvError ("Error decoding JSON: " ++ e);
               Logged LvDebug ("Response text: " ++ response_text);
               Logged LvDebug ("Extracted JSON string: "
                               ++ normalize response_text) ])%list)
    /\ (forall e, json_loads (normalize response_text) = OtherError e ->
       run env (scrape_product J json_loads urlparse (Some m) data)
       = (Ok (error_response ("An error occurred: " ++ e) 500),
          extraction_events url html content
          ++ [ Called (generate_content m (review_prompt (take 8000 content)));
               Called (generate_content m (scrape_analysis_prompt review_text));
               Logged LvError ("Error processing product URL: " ++ e) ])%list).
Proof.
  intros J json_loads urlparse env m data url html content review_text
         response_text Hv Hp H1 H2.
  repeat split; intros x Hx;
    rewrite (run_scrape_content J json_loads urlparse env (Some m) data
               url html content Hv Hp);
    unfold review_and_analyze;
    cbn [generate call bind try_except run]; rewrite H1;
    cbn [text of_result bind try_except run]; rewrite H2;
    cbn [text of_result bind try_except run]; rewrite run_try_parse, Hx.
  - now rewrite (run_parse_ok J json_loads env response_text x Hx).
  - now rewrite (run_parse_err J json_loads env response_text x Hx).
  - reflexivity.
Qed.

Lemma X12_scrape_two_stage_pipeline_witness :
  (valid_url urlparse_ref example_data example_url
   /\ page_extracted (env_page (repeat_char "a" 120) fenced_example)
                     example_url example_html (repeat_char "a" 120)
   /\ env_page (repeat_char "a" 120) fenced_example
        (generate_content gemini_flash
           (review_prompt (take 8000 (repeat_char "a" 120))))
      = Ok {| text := Ok fenced_example |}
   /\ env_page (repeat_char "a" 120) fenced_example
        (generate_content gemini_flash (scrape_analysis_prompt fenced_example))
      = Ok {| text := Ok fenced_example |})
  /\ fst (run (env_page (repeat_char "a" 120) fenced_example)
              (scrape_product json json_loads_ref urlparse_ref
                              (Some gemini_flash) example_data))
     = Ok {| body := Analysis example_object; status := 200 |}.
Proof.
  split; [split; [example_valid_url|split; [example_page|split; reflexivity]]|].
  rewrite (proj1 (X12_scrape_two_stage_pipeline json json_loads_ref urlparse_ref
                    (env_page (repeat_char "a" 120) fenced_example)
                    gemini_flash example_data example_url example_html
                    (repeat_char "a" 120) fenced_example fenced_example
                    ltac:(example_valid_url) ltac:(example_page)
                    eq_refl eq_refl)
                 example_object);
    [reflexivity|vm_compute; reflexivity].
Defined.

(** X13.  No partial result: when either of the two calls to the provider
    fails, the answer is 500 with the text of the exception; after a
    failure of the first call the second is never made. *)
Theorem X13_scrape_provider_error :
  forall (J : Type) (json_loads : string -> loaded J)
         (urlparse : string -> result ParseResult) (env : Env)
         (m : Model) (data : dict) (url html content : string),
    valid_url urlparse data url ->
    page_extracted env url html content ->
    (forall e,
       env (generate_content m (review_prompt (take 8000 content))) = Err e
       \/ env (generate_content m (review_prompt (take 8000 content)))
          = Ok {| text := Err e |} ->
       run env (scrape_product J json_loads urlparse (Some m) data)
       = (Ok (error_response ("An error occurred: " ++ e) 500),
          extraction_events url html content
          ++ [ Called (generate_content m (review_prompt (take 8000 content)));
               Logged LvError ("Error processing product URL: " ++ e) ])%list)
    /\ (forall review_text e,
       env (generate_content m (review_prompt (take 8000 content)))
       = Ok {| text := Ok review_text |} ->
       env (generate_content m (scrape_analysis_prompt review_text)) = Err e
       \/ env (generate_content m (scrape_analysis_prompt review_text))
          = Ok {| text := Err e |} ->
       run env (scrape_product J json_loads urlparse (Some m) data)
       = (Ok (error_response ("An error occurred: " ++ e) 500),
          extraction_events url html content
          ++ [ Called (generate_content m (review_prompt (take 8000 content)));
               Called (generate_content m (scrape_analysis_prompt review_text));
               Logged LvError ("Error processing product URL: " ++ e) ])%list).
Proof.
  intros J json_loads urlparse env m data url html content Hv Hp.
  split.
  - intros e H.
    rewrite (run_scrape_content J json_loads urlparse env (Some m) data
               url html content Hv Hp).
    unfold review_and_analyze. cbn [generate call bind try_except run].
    destruct H as [H|H]; rewrite H; reflexivity.
  - intros review_text e H1 H2.
    rewrite (run_scrape_content J json_loads urlparse env (Some m) data
               url html content Hv Hp).
    unfold review_and_analyze. cbn [generate call bind try_except run].
    rewrite H1. cbn [text of_result bind try_except run].
    destruct H2 as [H2|H2]; rewrite H2; reflexivity.
Qed.

Lemma X13_scrape_provider_error_witness :
  (valid_url urlparse_ref example_data example_url
   /\ page_extracted
        (env_of (Ok []) (fun name => Ok {| model_name := name |})
                (fun _ _ => Err "429 quota exceeded")
                (fun _ => Ok (Some example_html))
                (fun _ => Ok (Some (repeat_char "a" 120))))
        example_url example_html (repeat_char "a" 120))
  /\ fst (run (env_of (Ok []) (fun name => Ok {| model_name := name |})
                      (fun _ _ => Err "429 quota exceeded")
                      (fun _ => Ok (Some example_html))
                      (fun _ => Ok (Some (repeat_char "a" 120))))
              (scrape_product json json_loads_ref urlparse_ref
                              (Some gemini_flash) example_data))
     = Ok (error_response "An error occurred: 429 quota exceeded" 500).
Proof.
  split; [split; [example_valid_url|example_page]|].
  rewrite (proj1 (X13_scrape_provider_error json json_loads_ref urlparse_ref
                    (env_of (Ok []) (fun name => Ok {| model_name := name |})
                            (fun _ _ => Err "429 quota exceeded")
                            (fun _ => Ok (Some example_html))
                            (fun _ => Ok (Some (repeat_char "a" 120))))
                    gemini_flash example_data example_url example_html
                    (repeat_char "a" 120)
                    ltac:(example_valid_url) ltac:(example_page))
                 "429 quota exceeded" (or_introl eq_refl)).
  reflexivity.
Defined.

(** X14.  [/scrape] always answers, with 200, 400, 429 or 500; it
    downloads at most once and calls the provider at most twice; and a 200
    answer carries a parsed value and was produced by exactly two calls to
    the provider. *)
Theorem X14_scrape_outcomes :
  forall (J : Type) (json_loads : string -> loaded J)
         (urlparse : string -> result ParseResult) (env : Env)
         (model : option Model) (data : dict),
  exists resp t,
    run env (scrape_product J json_loads urlparse model data) = (Ok resp, t)
    /\ In (status resp) [200; 400; 429; 500]
    /\ count_events is_llm_call t <= 2
    /\ count_events is_fetch t <= 1
    /\ (status resp = 200 ->
        (exists v, body resp = Analysis v)
        /\ count_events is_llm_call t = 2).
Proof.
  intros J json_loads urlparse env model data.
  destruct (scrape_table J json_loads urlparse env model data)
    as (resp & t & Hr & Hs & Hl & Hf & _ & _ & H200).
  exists resp, t. auto.
Qed.

(** X15.  The bot-protection answer is given only when a download was
    attempted and yielded nothing and a configured fragment occurs in the
    lower-cased URL; the provider has not been called then. *)
Theorem X15_bot_protected_only_if :
  forall (J : Type) (json_loads : string -> loaded J)
         (urlparse : string -> result ParseResult) (env : Env)
         (model : option Model) (data : dict) (resp : HttpResponse J)
         (t : list Event),
    run env (scrape_product J json_loads urlparse model data) = (Ok resp, t) ->
    status resp = 429 ->
    exists d,
      env (fetch_url (dict_get data "url" EmptyString)) = Ok d
      /\ falsy d = true
      /\ existsb (fun site =>
                    contains site (lower (dict_get data "url" EmptyString)))
                 e_commerce_sites = true
      /\ llm_calls t = [].
Proof.
  intros J json_loads urlparse env model data resp t Hrun Hs.
  destruct (scrape_table J json_loads urlparse env model data)
    as (resp' & t' & Hr & _ & _ & _ & H429 & _).
  rewrite Hrun in Hr. injection Hr as <- <-. now apply H429.
Qed.

Lemma X15_bot_protected_only_if_witness :
  (run (env_answering fenced_example)
       (scrape_product json json_loads_ref urlparse_ref (Some gemini_flash)
                       [("url", "https://www.amazon.in/dp/B0")])
   = (Ok (error_response bot_protection_message 429),
      [ Logged LvDebug "Attempting to scrape content from: https://www.amazon.in/dp/B0";
        Called (fetch_url "https://www.amazon.in/dp/B0");
        Logged LvWarning "Likely bot protection encountered on https://www.amazon.in/dp/B0" ])
   /\ status (error_response (J := json) bot_protection_message 429) = 429)
  /\ exists d,
      env_answering fenced_example
        (fetch_url (dict_get [("url", "https://www.amazon.in/dp/B0")]
                             "url" EmptyString)) = Ok d
      /\ falsy d = true
      /\ existsb (fun site =>
                    contains site
                      (lower (dict_get [("url", "https://www.amazon.in/dp/B0")]
                                       "url" EmptyString)))
                 e_commerce_sites = true
      /\ llm_calls
           [ Logged LvDebug "Attempting to scrape content from: https://www.amazon.in/dp/B0";
             Called (fetch_url "https://www.amazon.in/dp/B0");
             Logged LvWarning "Likely bot protection encountered on https://www.amazon.in/dp/B0" ]
         = [].
Proof.
  split; [split; vm_compute; reflexivity|].
  apply (X15_bot_protected_only_if json json_loads_ref urlparse_ref
           (env_answering fenced_example) (Some gemini_flash)
           [("url", "https://www.amazon.in/dp/B0")]
           (error_response bot_protection_message 429));
    vm_compute; reflexivity.
Defined.

(** X16.  The provider is never called for a page that could not be read:
    if a run of [/scrape] calls the provider at all, then there is a
    model, the page was downloaded, at least 100 characters were extracted
    from it, and the first call carries the review prompt built from the
    first 8000 characters of that content. *)
Theorem X16_provider_called_only_after_content :
  forall (J : Type) (json_loads : string -> loaded J)
         (urlparse : string -> result ParseResult) (env : Env)
         (model : option Model) (data : dict) (resp : HttpResponse J)
         (t : list Event),
    run env (scrape_product J json_loads urlparse model data) = (Ok resp, t) ->
    llm_calls t <> [] ->
    exists m html content,
      model = Some m
      /\ env (fetch_url (dict_get data "url" EmptyString)) = Ok (Some html)
      /\ is_empty html = false
      /\ env (extract html) = Ok (Some content)
      /\ 100 <= String.length content
      /\ hd_error (llm_calls t)
         = Some (Called (generate_content m (review_prompt (take 8000 content)))).
Proof.
  intros J json_loads urlparse env model data resp t Hrun Hl.
  destruct (scrape_table J json_loads urlparse env model data)
    as (resp' & t' & Hr & _ & _ & _ & _ & Hllm & _).
  rewrite Hrun in Hr. injection Hr as <- <-. now apply Hllm.
Qed.

Lemma X16_provider_called_only_after_content_witness :
  (run (env_page (repeat_char "a" 120) fenced_example)
       (scrape_product json json_loads_ref urlparse_ref (Some gemini_flash)
                       example_data)
   = (Ok {| body := Analysis example_object; status := 200 |},
      snd (run (env_page (repeat_char "a" 120) fenced_example)
               (scrape_product json json_loads_ref urlparse_ref
                               (Some gemini_flash) example_data)))
   /\ llm_calls
        (snd (run (env_page (repeat_char "a" 120) fenced_example)
                  (scrape_product json json_loads_ref urlparse_ref
                                  (Some gemini_flash) example_data)))
      <> [])
  /\ exists m html content,
      Some gemini_flash = Some m
      /\ env_page (repeat_char "a" 120) fenced_example
           (fetch_url (dict_get example_data "url" EmptyString))
         = Ok (Some html)
      /\ is_empty html = false
      /\ env_page (repeat_char "a" 120) fenced_example (extract html)
         = Ok (Some content)
      /\ 100 <= String.length content
      /\ hd_error
           (llm_calls
              (snd (run (env_page (repeat_char "a" 120) fenced_example)
                        (scrape_product json json_loads_ref urlparse_ref
                                        (Some gemini_flash) example_data))))
         = Some (Called (generate_content m (review_prompt (take 8000 content)))).
Proof.
  split; [split; [vm_compute; reflexivity|vm_compute; discriminate]|].
  apply (X16_provider_called_only_after_content json json_loads_ref urlparse_ref
           (env_page (repeat_char "a" 120) fenced_example) (Some gemini_flash)
           example_data {| body := Analysis example_object; status := 200 |});
    [vm_compute; reflexivity|vm_compute; discriminate].
Defined.

(** ** Startup, every path *)

Section StartupTable.

Variable env : Env.

Ltac hello_only :=
  let m := fresh "m" in
  let p := fresh "p" in
  let H := fresh "H" in
  intros m p H; cbn [In] in H;
  repeat (destruct H as [H|H];
          [first [discriminate H | injection H as _ <-; reflexivity]|]);
  contradiction.

Ltac from_constructor :=
  let m := fresh "m" in
  let H := fresh "H" in
  intros m H;
  first [ discriminate H
        | injection H as <-;
          first [ exists "models/gemini-1.5-flash";
                  split; [cbn [In]; tauto|assumption]
                | exists "models/chat-bison-001";
                  split; [cbn [In]; tauto|assumption]
                | exists "models/text-bison-001";
                  split; [cbn [In]; tauto|assumption]
                | exists last_resort;
                  split; [cbn [In]; tauto|assumption] ] ].

Ltac every_constructor_raised :=
  let c := fresh "c" in
  let Hc := fresh "Hc" in
  intros c Hc; cbn [In app model_candidates] in Hc;
  repeat (destruct Hc as [<-|Hc]; [eauto|]); contradiction.

Ltac none_only_if :=
  let H := fresh "H" in
  intros H;
  first [ discriminate H
        | left; eauto; fail
        | right; every_constructor_raised ].

Ltac last_resort_only_if :=
  let H := fresh "H" in
  intros H;
  first [ every_constructor_raised
        | exfalso; cbn [In] in H; unfold last_resort in H;
          repeat (destruct H as [H|H]; [discriminate H|]); contradiction ].

Ltac startup_leaf :=
  do 2 eexists; (split; [reflexivity|]);
  cbn [count_events filter is_llm_call is_constructor List.length];
  split; [lia|]; split; [lia|]; split; [hello_only|];
  split; [from_constructor|]; split; [none_only_if|last_resort_only_if].

(** Every run of the startup block. *)
Lemma startup_table :
  exists model t,
    run env init_model = (Ok model, t)
    /\ count_events is_llm_call t <= 3
    /\ count_events is_constructor t <= 4
    /\ (forall m p, In (Called (generate_content m p)) t -> p = "Hello")
    /\ (forall m, model = Some m ->
        exists name, In (Called (GenerativeModel name)) t
                     /\ env (GenerativeModel name) = Ok m)
    /\ (model = None ->
        (exists e, env list_models = Err e)
        \/ forall c, In c (model_candidates ++ [last_resort]) ->
                     exists e, env (GenerativeModel c) = Err e)
    /\ (In (Called (GenerativeModel last_resort)) t ->
        forall c, In c model_candidates ->
                  exists e, env (GenerativeModel c) = Err e).
Proof.
  unfold init_model, model_candidates. cbn [run].
  destruct (env list_models) as [names|e0] eqn:H0; cbn [run];
    [|startup_leaf].
  cbn [run bind try_candidates].
  destruct (env (GenerativeModel "models/gemini-1.5-flash")) as [m1|e1] eqn:C1;
    cbn [run bind try_candidates];
    [destruct (env (generate_content m1 "Hello")) as [r1|e1] eqn:G1;
       cbn [run bind try_candidates]; [startup_leaf|]|];
    (destruct (env (GenerativeModel "models/chat-bison-001")) as [m2|e2] eqn:C2;
       cbn [run bind try_candidates];
       [destruct (env (generate_content m2 "Hello")) as [r2|e2] eqn:G2;
          cbn [run bind try_candidates]; [startup_leaf|]|]);
    (destruct (env (GenerativeModel "models/text-bison-001")) as [m3|e3] eqn:C3;
       cbn [run bind try_candidates];
       [destruct (env (generate_content m3 "Hello")) as [r3|e3] eqn:G3;
          cbn [run bind try_candidates]; [startup_leaf|]|]);
    try startup_leaf.
  destruct (env (GenerativeModel last_resort)) as [m4|e4] eqn:C4;
    cbn [run]; startup_leaf.
Qed.

End StartupTable.

Section StartupPaths.

Variable env : Env.

Lemma run_bind_ok {A B : Type} (p : Prog A) (f : A -> Prog B) (a : A)
      (t : list Event) :
  run env p = (Ok a, t) ->
  run env (bind p f) = (fst (run env (f a)), (t ++ snd (run env (f a)))%list).
Proof.
  revert t. induction p as [a'|e|o k IH|lvl msg k IH]; intros t H.
  - cbn in H. injection H as -> <-. cbn [bind app]. now destruct (run env _).
  - discriminate.
  - cbn [run] in H. destruct (run env (k (env o))) as [r t'] eqn:E.
    injection H as -> <-. cbn [bind run]. now rewrite (IH _ _ E).
  - cbn [run] in H. destruct (run env k) as [r t'] eqn:E.
    injection H as -> <-. cbn [bind run]. now rewrite (IH _ eq_refl).
Qed.

End StartupPaths.

(** X17.  Startup commits to the first candidate, in the order of the
    list, whose constructor and test prompt both return; no candidate
    after it is constructed, nor the last-resort name. *)
Theorem X17_startup_commits_first_working :
  forall (env : Env) (names failed later : list string) (c : string)
         (m : Model) (resp : Response),
    env list_models = Ok names ->
    model_candidates = (failed ++ c :: later)%list ->
    Forall (candidate_fails env) failed ->
    env (GenerativeModel c) = Ok m ->
    env (generate_content m "Hello") = Ok resp ->
    fst (run env init_model) = Ok (Some m)
    /\ forall x, In (Called (GenerativeModel x)) (snd (run env init_model)) ->
                 In x (failed ++ [c]).
Proof.
  intros env names failed later c m resp Hl Hsplit Hf Hc Hg.
  destruct (try_candidates_commit env failed later c None m resp Hf Hc Hg)
    as (t & Ht & Hin).
  unfold init_model. cbn [run]. rewrite Hl. cbn [run].
  rewrite Hsplit, (run_bind_ok env _ _ _ _ Ht). cbn [run fst snd].
  split; [reflexivity|].
  intros x [H|[H|[H|H]]]; try discriminate.
  rewrite app_nil_r in H. now apply Hin.
Qed.

Lemma X17_startup_commits_first_working_witness :
  (env_of (Ok ["models/chat-bison-001"])
          (fun name => Ok {| model_name := name |})
          (fun m _ => if String.eqb (model_name m) "models/chat-bison-001"
                      then Ok {| text := Ok "Hi" |} else Err "404 not found")
          (fun _ => Ok None) (fun _ => Ok None) list_models
   = Ok ["models/chat-bison-001"]
   /\ model_candidates
      = (["models/gemini-1.5-flash"] ++ "models/chat-bison-001"
         :: ["models/text-bison-001"])%list
   /\ Forall (candidate_fails
                (env_of (Ok ["models/chat-bison-001"])
                        (fun name => Ok {| model_name := name |})
                        (fun m _ =>
                           if String.eqb (model_name m) "models/chat-bison-001"
                           then Ok {| text := Ok "Hi" |} else Err "404 not found")
                        (fun _ => Ok None) (fun _ => Ok None)))
             ["models/gemini-1.5-flash"])
  /\ fst (run (env_of (Ok ["models/chat-bison-001"])
                      (fun name => Ok {| model_name := name |})
                      (fun m _ =>
                         if String.eqb (model_name m) "models/chat-bison-001"
                         then Ok {| text := Ok "Hi" |} else Err "404 not found")
                      (fun _ => Ok None) (fun _ => Ok None))
              init_model)
     = Ok (Some {| model_name := "models/chat-bison-001" |}).
Proof.
  split.
  - repeat split; try reflexivity.
    constructor; [|constructor]. cbn. eexists. reflexivity.
  - apply (X17_startup_commits_first_working
             (env_of (Ok ["models/chat-bison-001"])
                     (fun name => Ok {| model_name := name |})
                     (fun m _ =>
                        if String.eqb (model_name m) "models/chat-bison-001"
                        then Ok {| text := Ok "Hi" |} else Err "404 not found")
                     (fun _ => Ok None) (fun _ => Ok None))
             ["models/chat-bison-001"] ["models/gemini-1.5-flash"]
             ["models/text-bison-001"] "models/chat-bison-001"
             {| model_name := "models/chat-bison-001" |} {| text := Ok "Hi" |});
      try reflexivity.
    constructor; [|constructor]. cbn. eexists. reflexivity.
Defined.

(** X18.  The last-resort name is constructed exactly when the
    constructor of every candidate raised; it is then kept, if its own
    constructor returns, without any test prompt. *)
Theorem X18_last_resort_iff_no_constructor :
  forall (env : Env) (names : list string),
    env list_models = Ok names ->
    (In (Called (GenerativeModel last_resort)) (snd (run env init_model))
     <-> forall c, In c model_candidates ->
                   exists e, env (GenerativeModel c) = Err e)
    /\ ((forall c, In c model_candidates ->
                   exists e, env (GenerativeModel c) = Err e) ->
        llm_calls (snd (run env init_model)) = []
        /\ fst (run env init_model)
           = Ok (match env (GenerativeModel last_resort) with
                 | Ok m => Some m
                 | Err _ => None
                 end)).
Proof.
  intros env names Hl.
  assert (Hif : (forall c, In c model_candidates ->
                           exists e, env (GenerativeModel c) = Err e) ->
                In (Called (GenerativeModel last_resort)) (snd (run env init_model))
                /\ llm_calls (snd (run env init_model)) = []
                /\ fst (run env init_model)
                   = Ok (match env (GenerativeModel last_resort) with
                         | Ok m => Some m
                         | Err _ => None
                         end)).
  { intros Hc.
    destruct (Hc "models/gemini-1.5-flash") as [e1 H1]; [cbn; tauto|].
    destruct (Hc "models/chat-bison-001") as [e2 H2]; [cbn; tauto|].
    destruct (Hc "models/text-bison-001") as [e3 H3]; [cbn; tauto|].
    unfold init_model, model_candidates. cbn [run]. rewrite Hl.
    cbn [run bind try_candidates]. rewrite H1.
    cbn [run bind try_candidates]. rewrite H2.
    cbn [run bind try_candidates]. rewrite H3.
    cbn [run bind try_candidates].
    destruct (env (GenerativeModel last_resort)) as [m|e]; cbn;
      repeat split; tauto. }
  split; [split|].
  - destruct (startup_table env) as (model & t & Hr & _ & _ & _ & _ & _ & Hlast).
    rewrite Hr. exact Hlast.
  - intros Hc. now apply Hif.
  - intros Hc. now apply Hif.
Qed.

Lemma X18_last_resort_iff_no_constructor_witness :
  env_of (Ok []) (fun name => if String.eqb name last_resort
                              then Ok {| model_name := name |}
                              else Err "404 not found")
         (fun _ _ => Err "unavailable") (fun _ => Ok None) (fun _ => Ok None)
         list_models = Ok []
  /\ In (Called (GenerativeModel last_resort))
        (snd (run (env_of (Ok [])
                          (fun name => if String.eqb name last_resort
                                       then Ok {| model_name := name |}
                                       else Err "404 not found")
                          (fun _ _ => Err "unavailable")
                          (fun _ => Ok None) (fun _ => Ok None))
                  init_model)).
Proof.
  split; [reflexivity|].
  apply (proj1 (X18_last_resort_iff_no_constructor
                  (env_of (Ok [])
                          (fun name => if String.eqb name last_resort
                                       then Ok {| model_name := name |}
                                       else Err "404 not found")
                          (fun _ _ => Err "unavailable")
                          (fun _ => Ok None) (fun _ => Ok None))
                  [] eq_refl)).
  intros c Hc. cbn in Hc.
  repeat (destruct Hc as [<-|Hc]; [eexists; reflexivity|]). contradiction.
Defined.

(** X19.  Startup never raises.  It sends at most three prompts, each of
    them the test prompt, and calls at most four constructors; a handle
    that it leaves was returned by a constructor call of this run. *)
Theorem X19_startup_outcomes :
  forall env : Env,
  exists model t,
    run env init_model = (Ok model, t)
    /\ count_events is_llm_call t <= 3
    /\ count_events is_constructor t <= 4
    /\ (forall m p, In (Called (generate_content m p)) t -> p = "Hello")
    /\ (forall m, model = Some m ->
        exists name, In (Called (GenerativeModel name)) t
                     /\ env (GenerativeModel name) = Ok m).
Proof.
  intros env.
  destruct (startup_table env) as (model & t & Hr & Hl & Hc & Hh & Hp & _).
  exists model, t. auto.
Qed.

(** X20.  Startup leaves no handle only when listing the models raised,
    or when every constructor raised, the last-resort one included. *)
Theorem X20_no_handle_only_if :
  forall env : Env,
    fst (run env init_model) = Ok None ->
    (exists e, env list_models = Err e)
    \/ forall c, In c (model_candidates ++ [last_resort]) ->
                 exists e, env (GenerativeModel c) = Err e.
Proof.
  intros env H.
  destruct (startup_table env) as (model & t & Hr & _ & _ & _ & _ & Hn & _).
  rewrite Hr in H. cbn in H. injection H as ->. now apply Hn.
Qed.

Lemma X20_no_handle_only_if_witness :
  fst (run (env_of (Err "503 unavailable")
                   (fun name => Ok {| model_name := name |})
                   (fun _ _ => Ok {| text := Ok "Hi" |})
                   (fun _ => Ok None) (fun _ => Ok None))
           init_model) = Ok None
  /\ ((exists e, env_of (Err "503 unavailable")
                        (fun name => Ok {| model_name := name |})
                        (fun _ _ => Ok {| text := Ok "Hi" |})
                        (fun _ => Ok None) (fun _ => Ok None) list_models
                 = Err e)
      \/ forall c, In c (model_candidates ++ [last_resort]) ->
                   exists e, env_of (Err "503 unavailable")
                                    (fun name => Ok {| model_name := name |})
                                    (fun _ _ => Ok {| text := Ok "Hi" |})
                                    (fun _ => Ok None) (fun _ => Ok None)
                                    (GenerativeModel c)
                             = Err e).
Proof.
  split; [reflexivity|].
  apply (X20_no_handle_only_if
           (env_of (Err "503 unavailable")
                   (fun name => Ok {| model_name := name |})
                   (fun _ _ => Ok {| text := Ok "Hi" |})
                   (fun _ => Ok None) (fun _ => Ok None))).
  reflexivity.
Defined.

(** X21.  When listing the models raises, startup tries no candidate and
    leaves no handle.  With that global, [/analyze] answers 500 to every
    non-empty review without calling anything, [/scrape] still downloads
    and extracts the page before it answers 500, and [/health] answers 200
    all the same. *)
Theorem X21_requests_after_failed_startup :
  forall (env : Env) (e : string),
    env list_models = Err e ->
    exists model t,
      run env init_model = (Ok model, t)
      /\ model = None
      /\ network_calls t = [Called list_models]
      /\ (forall (J : Type) (json_loads : string -> loaded J) (data : dict),
            is_empty (dict_get data "review" EmptyString) = false ->
            run env (analyze_review J json_loads model data)
            = (Ok (error_response ("An error occurred: " ++ none_model_message) 500),
               [Logged LvError ("Error analyzing review: " ++ none_model_message)]))
      /\ (forall (J : Type) (json_loads : string -> loaded J)
                 (urlparse : string -> result ParseResult) (data : dict)
                 (url html content : string),
            valid_url urlparse data url ->
            page_extracted env url html content ->
            run env (scrape_product J json_loads urlparse model data)
            = (Ok (error_response ("An error occurred: " ++ none_model_message) 500),
               extraction_events url html content
               ++ [Logged LvError ("Error processing product URL: "
                                   ++ none_model_message)])%list)
      /\ (forall J : Type,
            run env (health_check J)
            = (Ok {| body := Fields [("status", "ok")]; status := 200 |}, [])).
Proof.
  intros env e He. exists None. eexists.
  split; [unfold init_model; cbn [run]; rewrite He; reflexivity|].
  split; [reflexivity|]. split; [reflexivity|]. split; [|split].
  - intros J json_loads data Hr. unfold analyze_review. now rewrite Hr.
  - intros J json_loads urlparse data url html content Hv Hp.
    now rewrite (run_scrape_content J json_loads urlparse env None data
                   url html content Hv Hp).
  - reflexivity.
Qed.

Lemma X21_requests_after_failed_startup_witness :
  env_of (Err "503 unavailable") (fun name => Ok {| model_name := name |})
         (fun _ _ => Ok {| text := Ok "Hi" |})
         (fun _ => Ok None) (fun _ => Ok None) list_models
  = Err "503 unavailable"
  /\ exists model t,
      run (env_of (Err "503 unavailable")
                  (fun name => Ok {| model_name := name |})
                  (fun _ _ => Ok {| text := Ok "Hi" |})
                  (fun _ => Ok None) (fun _ => Ok None))
          init_model = (Ok model, t)
      /\ model = None.
Proof.
  split; [reflexivity|].
  destruct (X21_requests_after_failed_startup
              (env_of (Err "503 unavailable")
                      (fun name => Ok {| model_name := name |})
                      (fun _ _ => Ok {| text := Ok "Hi" |})
                      (fun _ => Ok None) (fun _ => Ok None))
              "503 unavailable" eq_refl)
    as (model & t & Hr & Hm & _).
  exists model, t. split; assumption.
Defined.
